(** * Sales bonus report: [analyzeSalesData] and its two strategy functions

    A shallow embedding of the two JavaScript sources of the repository,
    [src/src/main.js] (module [MainJs]) and [src/unnamed/part_000] (module
    [Part000]), and the properties of the report they compute.

    JavaScript numbers are IEEE 754 binary64 values: they are modelled by
    Rocq's primitive floats, whose [+], [-], [*], [/] and comparisons are
    the same operations.  Objects used as dictionaries keyed by seller id
    and SKU are finite maps over strings (own properties only: identifiers
    are taken not to collide with the names inherited from
    [Object.prototype]).  The objects the call allocates live in an
    explicit heap next to the caller's [data], so that what the call writes
    is visible in the model. *)

From Stdlib Require Import ZArith Uint63 PrimFloat SpecFloat FloatOps.
From Stdlib Require Import Ascii String Sorted Permutation.
From stdpp Require Import gmap strings list.
From Stdlib Require FloatAxioms.

Set Warnings "-inexact-float".

Local Open Scope float_scope.

(** ** Numbers *)

Module Num.

(** ToBoolean on a number: [0], [-0] and [NaN] are falsy. *)
Definition truthy (x : float) : bool :=
  negb (is_zero x) && negb (is_nan x).

(** The integer nearest to [m * 2^e * 100]; of two nearest ones the
    larger, as [Number.prototype.toFixed] picks it. *)
Definition hundredths (m : positive) (e : Z) : Z :=
  if (0 <=? e)%Z then (Z.pos m * 2 ^ e * 100)%Z
  else
    let d := (2 ^ (- e))%Z in
    ((2 * (Z.pos m * 100) + d) / (2 * d))%Z.

(** The binary64 value nearest to [num / den] (ties to even), for
    [0 < num], [0 < den] and a quotient in the normal range: what reading
    the decimal string back with unary [+] yields. *)
Definition nearest (num den : Z) : float :=
  let e0 := (Z.log2 num - Z.log2 den - 53)%Z in
  let scale (e : Z) : Z * Z :=
    if (0 <=? e)%Z then (num, den * 2 ^ e)%Z else (num * 2 ^ (- e), den)%Z in
  let e :=
    let '(n0, d0) := scale e0 in
    if (2 ^ 53 <=? n0 / d0)%Z then (e0 + 1)%Z else e0 in
  let '(n, d) := scale e in
  let q := (n / d)%Z in
  let r := (n mod d)%Z in
  let q' :=
    match (2 * r ?= d)%Z with
    | Lt => q
    | Gt => (q + 1)%Z
    | Eq => if Z.even q then q else (q + 1)%Z
    end in
  Z.ldexp (of_uint63 (Uint63.of_Z q')) e.

(** [+num.toFixed(2)]: [toFixed] keeps NaN and the infinities, prints a
    number of magnitude at least [1e21] in full (so it reads back as
    itself), and otherwise prints the sign of [num] and the nearest
    number of hundredths of its magnitude. *)
Definition round2 (num : float) : float :=
  match Prim2SF num with
  | S754_nan => nan
  | S754_infinity _ => num
  | S754_zero _ => 0
  | S754_finite s m e =>
      if 1e21 <=? abs num then num
      else
        let n := hundredths m e in
        let r := if (n =? 0)%Z then 0 else nearest n 100 in
        if s then - r else r
  end.

End Num.

(** ** Ordinary objects used as dictionaries *)

Module JsObject.

(** The own properties of an object whose keys are strings, in the order
    in which they were created. *)
Definition t (V : Type) : Type := list (string * V).

Definition empty {V : Type} : t V := [].

(** [o[key]]; [None] is [undefined]. *)
Fixpoint get {V : Type} (o : t V) (key : string) : option V :=
  match o with
  | [] => None
  | (k, v) :: o' => if decide (k = key) then Some v else get o' key
  end.

(** [o[key] = value]: an existing property keeps its place, a new one is
    created last. *)
Fixpoint set {V : Type} (o : t V) (key : string) (value : V) : t V :=
  match o with
  | [] => [(key, value)]
  | (k, v) :: o' =>
      if decide (k = key) then (k, value) :: o' else (k, v) :: set o' key value
  end.

(** The value of a decimal digit, by its character code. *)
Definition digit (c : ascii) : option N :=
  let code := N_of_ascii c in
  if (48 <=? code)%N && (code <=? 57)%N then Some (code - 48)%N else None.

(** The number that a string of decimal digits writes. *)
Definition digits (s : string) : option N :=
  foldl
    (fun acc c =>
       match acc, digit c with
       | Some n, Some d => Some (10 * n + d)%N
       | _, _ => None
       end)
    (Some 0%N) (list_ascii_of_string s).

(** A key is an array index when it is the canonical decimal form of an
    integer below [2^32 - 1]. *)
Definition array_index (key : string) : option N :=
  match key with
  | EmptyString => None
  | String "0"%char EmptyString => Some 0%N
  | String "0"%char _ => None
  | _ =>
      match digits key with
      | Some n => if (n <? 2 ^ 32 - 1)%N then Some n else None
      | None => None
      end
  end.

Fixpoint insert_index {V : Type} (n : N) (kv : string * V)
    (l : list (N * (string * V))) : list (N * (string * V)) :=
  match l with
  | [] => [(n, kv)]
  | (m, kv') :: l' =>
      if (n <? m)%N then (n, kv) :: l else (m, kv') :: insert_index n kv l'
  end.

Fixpoint index_entries {V : Type} (o : t V) : list (N * (string * V)) :=
  match o with
  | [] => []
  | (k, v) :: o' =>
      match array_index k with
      | Some n => insert_index n (k, v) (index_entries o')
      | None => index_entries o'
      end
  end.

Definition named_entries {V : Type} (o : t V) : list (string * V) :=
  filter (fun kv => array_index kv.1 = None) o.

(** [Object.entries(o)]: the array-index keys in ascending numeric
    order, then the other keys in creation order. *)
Definition entries {V : Type} (o : t V) : list (string * V) :=
  map snd (index_entries o) ++ named_entries o.

(** [Object.fromEntries(l)] read as a dictionary: a later entry
    overrides an earlier one with the same key. *)
Definition fromEntries {V : Type} (l : list (string * V)) : gmap string V :=
  foldl (fun m kv => <[kv.1 := kv.2]> m) ∅ l.

End JsObject.

(** ** Arrays *)

Module JsArray.

(** [Array.prototype.sort(compareFn)] as a stable insertion sort: [x]
    moves behind [y] exactly when [compareFn(x, y) > 0] (a NaN result
    counts as [0]).  For a consistent comparator every conforming engine
    returns this same array. *)
Fixpoint insert {A : Type} (compareFn : A -> A -> float) (x : A) (l : list A)
    : list A :=
  match l with
  | [] => [x]
  | y :: l' =>
      if 0 <? compareFn x y then y :: insert compareFn x l' else x :: l
  end.

Definition sort {A : Type} (compareFn : A -> A -> float) (l : list A) : list A :=
  foldr (insert compareFn) [] l.

(** [l.slice(0, n)] *)
Definition slice0 {A : Type} (n : nat) (l : list A) : list A := take n l.

End JsArray.

(** ** Data model *)

Module Seller.
Record t : Type := mk { id : string; first_name : string; last_name : string }.
End Seller.

Module Product.
Record t : Type := mk { sku : string; purchase_price : float }.
End Product.

Module LineItem.
Record t : Type :=
  mk { sku : string; quantity : float; sale_price : float; discount : float }.
End LineItem.

Module PurchaseRecord.
Record t : Type := mk { seller_id : string; items : list LineItem.t }.
End PurchaseRecord.

Module TopProduct.
Record t : Type := mk { sku : string; quantity : float }.
End TopProduct.

(** A property that should hold an array: absent, some other value, or an
    array with its elements. *)
Inductive ArrayField (A : Type) : Type :=
  | Absent
  | NotArray
  | IsArray (elems : list A).
Arguments Absent {A}.
Arguments NotArray {A}.
Arguments IsArray {A} elems.

Definition isArray {A : Type} (v : ArrayField A) : bool :=
  match v with IsArray _ => true | _ => false end.

Definition elems_of {A : Type} (v : ArrayField A) : list A :=
  match v with IsArray l => l | _ => [] end.

(** The [data] argument when it is truthy; a truthy value that is not an
    object has all three properties [Absent]. *)
Record Data : Type := mkData {
  sellers : ArrayField Seller.t;
  products : ArrayField Product.t;
  purchase_records : ArrayField PurchaseRecord.t
}.

(** The per-seller accumulator built by [analyzeSalesData].  [bonus] and
    [top_products] are [undefined] ([None]) until the ranking pass sets
    them. *)
Module SellerStat.
Record t : Type := mk {
  id : string;
  name : string;
  revenue : float;
  profit : float;
  sales_count : float;
  products_sold : JsObject.t float;
  bonus : option float;
  top_products : option (list TopProduct.t)
}.

Definition set_revenue (v : float) (s : t) : t :=
  mk (id s) (name s) v (profit s) (sales_count s) (products_sold s)
     (bonus s) (top_products s).
Definition set_profit (v : float) (s : t) : t :=
  mk (id s) (name s) (revenue s) v (sales_count s) (products_sold s)
     (bonus s) (top_products s).
Definition set_sales_count (v : float) (s : t) : t :=
  mk (id s) (name s) (revenue s) (profit s) v (products_sold s)
     (bonus s) (top_products s).
Definition set_products_sold (v : JsObject.t float) (s : t) : t :=
  mk (id s) (name s) (revenue s) (profit s) (sales_count s) v
     (bonus s) (top_products s).
Definition set_bonus (v : float) (s : t) : t :=
  mk (id s) (name s) (revenue s) (profit s) (sales_count s) (products_sold s)
     (Some v) (top_products s).
Definition set_top_products (v : list TopProduct.t) (s : t) : t :=
  mk (id s) (name s) (revenue s) (profit s) (sales_count s) (products_sold s)
     (bonus s) (Some v).
End SellerStat.

(** What the [top_products] property of a report can hold. *)
Inductive TopProductsValue : Type :=
  | TopUndefined
  | TopArray (l : list TopProduct.t)
  | TopNumber (x : float).

Module Report.
Record t : Type := mk {
  seller_id : string;
  name : string;
  revenue : float;
  profit : float;
  sales_count : float;
  top_products : TopProductsValue;
  bonus : float
}.
End Report.

(** The strategy functions are pure functions of their arguments. *)
Definition RevenueFn : Type := LineItem.t -> Product.t -> float.
Definition BonusFn : Type := Z -> Z -> SellerStat.t -> float.

(** A property that should hold a function: [undefined], a value that is
    not a function (truthy or falsy), or a function. *)
Inductive FunField (F : Type) : Type :=
  | NoFunction
  | NotCallable (truthy : bool)
  | IsFunction (f : F).
Arguments NoFunction {F}.
Arguments NotCallable {F} truthy.
Arguments IsFunction {F} f.

(** [!v] *)
Definition falsy_field {F : Type} (v : FunField F) : bool :=
  match v with
  | NoFunction => true
  | NotCallable truthy => negb truthy
  | IsFunction _ => false
  end.

(** [typeof v === "function"] *)
Definition is_function {F : Type} (v : FunField F) : bool :=
  match v with IsFunction _ => true | _ => false end.

(** The [options] argument: falsy, truthy with a [typeof] other than
    ["object"], or an object with its two properties. *)
Inductive Options : Type :=
  | OptionsFalsy
  | OptionsNotObject
  | OptionsObject (calculateRevenue : FunField RevenueFn)
                  (calculateBonus : FunField BonusFn).

(** The exceptions, by the statement that throws them. *)
Inductive Error : Type :=
  | InvalidData          (* the check of [data] *)
  | OptionsNotAnObject   (* the check of [options] *)
  | MissingFunctions     (* the check of the two functions *)
  | TypeError.           (* a method call on [undefined] *)



Inductive Result (A : Type) : Type :=
  | Returns (a : A)
  | Throws (e : Error).
Arguments Returns {A} a.
Arguments Throws {A} e.

Fixpoint mapM {A B : Type} (f : A -> Result B) (l : list A) : Result (list B) :=
  match l with
  | [] => Returns []
  | x :: l' =>
      match f x with
      | Throws e => Throws e
      | Returns y =>
          match mapM f l' with
          | Throws e => Throws e
          | Returns ys => Returns (y :: ys)
          end
      end
  end.

(** ** The heap of a call *)

(** The objects reachable from the caller's [data] argument ([None] is a
    falsy argument), and the array [sellerStats] with the accumulator
    objects it holds, which the call allocates.  A reference to an
    accumulator is its position in the array when it was created. *)
Record Heap : Type := mkHeap {
  caller_data : option Data;
  sellerStats : list SellerStat.t
}.

Definition alloc_sellerStats (stats : list SellerStat.t) (h : Heap) : Heap :=
  mkHeap (caller_data h) stats.

(** A write to properties of the accumulator [seller]. *)
Definition update (seller : nat) (f : SellerStat.t -> SellerStat.t) (h : Heap)
    : Heap :=
  mkHeap (caller_data h) (alter f seller (sellerStats h)).

Definition update_all (f : list SellerStat.t -> list SellerStat.t) (h : Heap)
    : Heap :=
  mkHeap (caller_data h) (f (sellerStats h)).

(** The heap at the start of a call: nothing allocated yet. *)
Definition initial_heap (data : option Data) : Heap := mkHeap data [].

(** ** Helpers shared by the two sources *)

(** [!data || !Array.isArray(data.sellers) || data.sellers.length === 0
     || ... products ... || ... purchase_records ...] *)
Definition invalidData (data : option Data) : bool :=
  match data with
  | None => true
  | Some d =>
      negb (isArray (sellers d)) || Nat.eqb (length (elems_of (sellers d))) 0
      || negb (isArray (products d)) || Nat.eqb (length (elems_of (products d))) 0
      || negb (isArray (purchase_records d))
      || Nat.eqb (length (elems_of (purchase_records d))) 0
  end.

(** The object literal of [data.sellers.map(seller => ({ ... }))]. *)
Definition newStat (seller : Seller.t) : SellerStat.t :=
  SellerStat.mk (Seller.id seller)
    (Seller.first_name seller +:+ " " +:+ Seller.last_name seller)
    0 0 0 JsObject.empty None None.

(** [Object.fromEntries(sellerStats.map(s => [s.id, s]))]: the values are
    references to the accumulators. *)
Definition sellerIndex_of (stats : list SellerStat.t) : gmap string nat :=
  JsObject.fromEntries (imap (fun i s => (SellerStat.id s, i)) stats).

(** [Object.fromEntries(data.products.map(p => [p.sku, p]))] *)
Definition productIndex_of (products : list Product.t) : gmap string Product.t :=
  JsObject.fromEntries (map (fun p => (Product.sku p, p)) products).

(** [(a, b) => b.profit - a.profit] *)
Definition byProfit (a b : SellerStat.t) : float :=
  SellerStat.profit b - SellerStat.profit a.

(** [(a, b) => b.quantity - a.quantity] *)
Definition byQuantity (a b : TopProduct.t) : float :=
  TopProduct.quantity b - TopProduct.quantity a.

(** [Object.entries(seller.products_sold)
      .map(([sku, quantity]) => ({ sku, quantity }))
      .sort((a, b) => b.quantity - a.quantity)
      .slice(0, 10)] *)
Definition topProducts (seller : SellerStat.t) : list TopProduct.t :=
  JsArray.slice0 10
    (JsArray.sort byQuantity
       (map (fun kv => TopProduct.mk kv.1 kv.2)
          (JsObject.entries (SellerStat.products_sold seller)))).

(** ** [src/unnamed/part_000] *)

Module Part000.

Definition calculateSimpleRevenue (purchase : LineItem.t) (_product : Product.t)
    : float :=
  let discount := LineItem.discount purchase in
  let sale_price := LineItem.sale_price purchase in
  let quantity := LineItem.quantity purchase in
  let discountDecimal := discount / 100 in
  let fullPrice := sale_price * quantity in
  fullPrice * (1 - discountDecimal).

Definition calculateBonusByProfit (index total : Z) (seller : SellerStat.t)
    : float :=
  let profit := SellerStat.profit seller in
  if (index =? 0)%Z then profit * 0.15
  else if (index =? 1)%Z || (index =? 2)%Z then profit * 0.10
  else if (index =? total - 1)%Z then 0
  else profit * 0.05.

Definition options : Options :=
  OptionsObject (IsFunction calculateSimpleRevenue)
                (IsFunction calculateBonusByProfit).

Definition round2 (num : float) : float := Num.round2 num.

(** [(seller.products_sold[item.sku] || 0)] *)
Definition or_zero (v : option float) : float :=
  match v with
  | Some x => if Num.truthy x then x else 0
  | None => 0
  end.

(** The body of [record.items.forEach(item => ...)]: the state is the heap
    and the local [recordRevenue]. *)
Definition processItem (calculateRevenue : RevenueFn)
    (productIndex : gmap string Product.t) (seller : nat) (item : LineItem.t)
    (st : Heap * float) : Heap * float :=
  let '(h, recordRevenue) := st in
  match productIndex !! LineItem.sku item with
  | None => st
  | Some product =>
      let cost := Product.purchase_price product * LineItem.quantity item in
      let revenue := calculateRevenue item product in
      let profit := revenue - cost in
      let h :=
        update seller
          (fun s => SellerStat.set_profit (round2 (SellerStat.profit s + profit)) s)
          h in
      let recordRevenue := round2 (recordRevenue + revenue) in
      let h :=
        update seller
          (fun s =>
             SellerStat.set_products_sold
               (JsObject.set (SellerStat.products_sold s) (LineItem.sku item)
                  (or_zero (JsObject.get (SellerStat.products_sold s)
                              (LineItem.sku item))
                   + LineItem.quantity item))
               s)
          h in
      (h, recordRevenue)
  end.

(** The body of [data.purchase_records.forEach(record => ...)]. *)
Definition processRecord (calculateRevenue : RevenueFn)
    (sellerIndex : gmap string nat) (productIndex : gmap string Product.t)
    (record : PurchaseRecord.t) (h : Heap) : Heap :=
  match sellerIndex !! PurchaseRecord.seller_id record with
  | None => h
  | Some seller =>
      let h :=
        update seller
          (fun s => SellerStat.set_sales_count (SellerStat.sales_count s + 1) s)
          h in
      let '(h, recordRevenue) :=
        foldl (fun st item => processItem calculateRevenue productIndex seller item st)
          (h, 0) (PurchaseRecord.items record) in
      update seller
        (fun s =>
           SellerStat.set_revenue (round2 (SellerStat.revenue s + recordRevenue)) s)
        h
  end.

(** The body of [sellerStats.forEach((seller, index) => ...)]. *)
Definition rankSeller (calculateBonus : BonusFn) (totalSellers : Z) (index : nat)
    (seller : SellerStat.t) : SellerStat.t :=
  let seller :=
    SellerStat.set_bonus
      (round2 (calculateBonus (Z.of_nat index) totalSellers seller)) seller in
  SellerStat.set_top_products (topProducts seller) seller.

(** The body of the final [sellerStats.map(seller => ({ ... }))];
    [round2(undefined)] throws. *)
Definition report (seller : SellerStat.t) : Result Report.t :=
  match SellerStat.bonus seller with
  | None => Throws TypeError
  | Some bonus =>
      Returns
        (Report.mk (SellerStat.id seller) (SellerStat.name seller)
           (round2 (SellerStat.revenue seller))
           (round2 (SellerStat.profit seller))
           (SellerStat.sales_count seller)
           (match SellerStat.top_products seller with
            | None => TopUndefined
            | Some l => TopArray l
            end)
           (round2 bonus))
  end.

(** The accumulation pass over the valid collections. *)
Definition accumulate (calculateRevenue : RevenueFn) (products : list Product.t)
    (purchase_records : list PurchaseRecord.t) (h : Heap) : Heap :=
  let sellerIndex := sellerIndex_of (sellerStats h) in
  let productIndex := productIndex_of products in
  foldl (fun h record => processRecord calculateRevenue sellerIndex productIndex record h)
    h purchase_records.

Definition analyzeSalesData (options : Options) (h : Heap)
    : Result (list Report.t) * Heap :=
  if invalidData (caller_data h) then (Throws InvalidData, h)
  else
    match caller_data h with
    | None => (Throws InvalidData, h)
    | Some data =>
        match options with
        | OptionsFalsy | OptionsNotObject => (Throws OptionsNotAnObject, h)
        | OptionsObject (IsFunction calculateRevenue) (IsFunction calculateBonus) =>
            (* both [typeof] tests pass *)
            let h := alloc_sellerStats (map newStat (elems_of (sellers data))) h in
            let h :=
              accumulate calculateRevenue (elems_of (products data))
                (elems_of (purchase_records data)) h in
            let h := update_all (JsArray.sort byProfit) h in
            let totalSellers := Z.of_nat (length (sellerStats h)) in
            let h := update_all (imap (rankSeller calculateBonus totalSellers)) h in
            (mapM report (sellerStats h), h)
        | OptionsObject _ _ => (Throws MissingFunctions, h)
        end
    end.

End Part000.

(** ** [src/src/main.js] *)

Module MainJs.

Definition calculateSimpleRevenue (purchase : LineItem.t) (_product : Product.t)
    : float :=
  let discount := LineItem.discount purchase in
  let sale_price := LineItem.sale_price purchase in
  let quantity := LineItem.quantity purchase in
  let discountDecimal := discount / 100 in
  let fullPrice := sale_price * quantity in
  let revenue := fullPrice * (1 - discountDecimal) in
  revenue.

Definition calculateBonusByProfit (index total : Z) (seller : SellerStat.t)
    : float :=
  let profit := SellerStat.profit seller in
  if (index =? 0)%Z then profit * 0.15
  else if (index =? 1)%Z || (index =? 2)%Z then profit * 0.10
  else if (index =? total - 1)%Z then 0.0
  else profit * 0.05.

Definition options : Options :=
  OptionsObject (IsFunction calculateSimpleRevenue)
                (IsFunction calculateBonusByProfit).

(** [+x.toFixed(2)] *)
Definition toFixed2 (x : float) : float := Num.round2 x.

(** ToNumber of a property that may be [undefined]. *)
Definition to_number (v : option float) : float :=
  match v with Some x => x | None => nan end.

(** [!seller.products_sold[item.sku]] *)
Definition falsy (v : option float) : bool :=
  match v with Some x => negb (Num.truthy x) | None => true end.

(** [+seller.top_products]: an array is converted through its string,
    which is empty for the empty array and is no numeral for an array of
    objects. *)
Definition plus_array (v : option (list TopProduct.t)) : float :=
  match v with
  | None => nan
  | Some [] => 0
  | Some (_ :: _) => nan
  end.

(** The body of [record.items.forEach(item => ...)]: the state is the heap
    and the local [recordReveneu]. *)
Definition processItem (calculateRevenue : RevenueFn)
    (productIndex : gmap string Product.t) (seller : nat) (item : LineItem.t)
    (st : Heap * float) : Heap * float :=
  let '(h, recordReveneu) := st in
  match productIndex !! LineItem.sku item with
  | None => st
  | Some product =>
      let cost := Product.purchase_price product * LineItem.quantity item in
      let revenue := calculateRevenue item product in
      let profit := revenue - cost in
      let h :=
        update seller
          (fun s => SellerStat.set_profit (SellerStat.profit s + profit) s) h in
      let recordReveneu := recordReveneu + toFixed2 revenue in
      let h :=
        update seller
          (fun s =>
             if falsy (JsObject.get (SellerStat.products_sold s) (LineItem.sku item))
             then
               SellerStat.set_products_sold
                 (JsObject.set (SellerStat.products_sold s) (LineItem.sku item) 0) s
             else s)
          h in
      let h :=
        update seller
          (fun s =>
             SellerStat.set_products_sold
               (JsObject.set (SellerStat.products_sold s) (LineItem.sku item)
                  (to_number (JsObject.get (SellerStat.products_sold s)
                                (LineItem.sku item))
                   + LineItem.quantity item))
               s)
          h in
      (h, recordReveneu)
  end.

(** The body of [data.purchase_records.forEach(record => ...)]. *)
Definition processRecord (calculateRevenue : RevenueFn)
    (sellerIndex : gmap string nat) (productIndex : gmap string Product.t)
    (record : PurchaseRecord.t) (h : Heap) : Heap :=
  match sellerIndex !! PurchaseRecord.seller_id record with
  | None => h
  | Some seller =>
      let h :=
        update seller
          (fun s => SellerStat.set_sales_count (SellerStat.sales_count s + 1) s)
          h in
      let '(h, recordReveneu) :=
        foldl (fun st item => processItem calculateRevenue productIndex seller item st)
          (h, 0) (PurchaseRecord.items record) in
      update seller
        (fun s => SellerStat.set_revenue (SellerStat.revenue s + recordReveneu) s) h
  end.

(** The body of [sellerStats.forEach((seller, index) => ...)]. *)
Definition rankSeller (calculateBonus : BonusFn) (totalSellers : Z) (index : nat)
    (seller : SellerStat.t) : SellerStat.t :=
  let seller :=
    SellerStat.set_bonus (calculateBonus (Z.of_nat index) totalSellers seller)
      seller in
  SellerStat.set_top_products (topProducts seller) seller.

(** The body of the final [sellerStats.map(seller => ({ ... }))];
    [undefined.toFixed] throws. *)
Definition report (seller : SellerStat.t) : Result Report.t :=
  match SellerStat.bonus seller with
  | None => Throws TypeError
  | Some bonus =>
      Returns
        (Report.mk (SellerStat.id seller) (SellerStat.name seller)
           (toFixed2 (SellerStat.revenue seller))
           (toFixed2 (SellerStat.profit seller))
           (SellerStat.sales_count seller)
           (TopNumber (plus_array (SellerStat.top_products seller)))
           (toFixed2 bonus))
  end.

(** The accumulation pass over the valid collections. *)
Definition accumulate (calculateRevenue : RevenueFn) (products : list Product.t)
    (purchase_records : list PurchaseRecord.t) (h : Heap) : Heap :=
  let sellerIndex := sellerIndex_of (sellerStats h) in
  let productIndex := productIndex_of products in
  foldl (fun h record => processRecord calculateRevenue sellerIndex productIndex record h)
    h purchase_records.

Definition analyzeSalesData (options : Options) (h : Heap)
    : Result (list Report.t) * Heap :=
  if invalidData (caller_data h) then (Throws InvalidData, h)
  else
    match caller_data h with
    | None => (Throws InvalidData, h)
    | Some data =>
        match options with
        | OptionsFalsy | OptionsNotObject => (Throws OptionsNotAnObject, h)
        | OptionsObject calculateRevenue calculateBonus =>
            if falsy_field calculateRevenue || falsy_field calculateBonus
               || negb (is_function calculateRevenue)
               || negb (is_function calculateBonus)
            then (Throws MissingFunctions, h)
            else
              match calculateRevenue, calculateBonus with
              | IsFunction calculateRevenue, IsFunction calculateBonus =>
                  let h :=
                    alloc_sellerStats (map newStat (elems_of (sellers data))) h in
                  let h :=
                    accumulate calculateRevenue (elems_of (products data))
                      (elems_of (purchase_records data)) h in
                  let h := update_all (JsArray.sort byProfit) h in
                  let totalSellers := Z.of_nat (length (sellerStats h)) in
                  let h :=
                    update_all (imap (rankSeller calculateBonus totalSellers)) h in
                  (mapM report (sellerStats h), h)
              | _, _ => (Throws MissingFunctions, h)
              end
        end
    end.

End MainJs.

(** ** The specification's vocabulary *)










(** A seller whose only relevant property is [profit]. *)
Definition seller_with_profit (profit : float) : SellerStat.t :=
  SellerStat.mk "" "" 0 profit 0 JsObject.empty None None.

(** The accumulators when the accumulation pass has ended. *)
Definition totals (accumulate : RevenueFn -> list Product.t ->
                                list PurchaseRecord.t -> Heap -> Heap)
    (calculateRevenue : RevenueFn) (data : Data) : list SellerStat.t :=
  sellerStats
    (accumulate calculateRevenue (elems_of (products data))
       (elems_of (purchase_records data))
       (alloc_sellerStats (map newStat (elems_of (sellers data)))
          (initial_heap (Some data)))).



(** ** What the two sources share *)

Definition RecordStep : Type :=
  RevenueFn -> gmap string nat -> gmap string Product.t -> PurchaseRecord.t ->
  Heap -> Heap.

Definition Analyzer : Type := Options -> Heap -> Result (list Report.t) * Heap.

(** The pass over [data.purchase_records], for either body of the loop. *)
Definition accumulate_with (processRecord : RecordStep)
    (calculateRevenue : RevenueFn) (products : list Product.t)
    (purchase_records : list PurchaseRecord.t) (h : Heap) : Heap :=
  let sellerIndex := sellerIndex_of (sellerStats h) in
  let productIndex := productIndex_of products in
  foldl (fun h record => processRecord calculateRevenue sellerIndex productIndex record h)
    h purchase_records.

(** What [analyzeSalesData] does once both checks have passed. *)
Definition pipeline (processRecord : RecordStep)
    (rankSeller : BonusFn -> Z -> nat -> SellerStat.t -> SellerStat.t)
    (report : SellerStat.t -> Result Report.t)
    (calculateRevenue : RevenueFn) (calculateBonus : BonusFn) (data : Data)
    : Result (list Report.t) * Heap :=
  let stats := totals (accumulate_with processRecord) calculateRevenue data in
  let sorted := JsArray.sort byProfit stats in
  let ranked :=
    imap (rankSeller calculateBonus (Z.of_nat (length sorted))) sorted in
  (mapM report ranked, mkHeap (Some data) ranked).

(** The loop body writes accumulators only, whatever the caller's data;
    skips a record of an unknown seller and an item of an unknown product;
    and keeps the accumulators' identities. *)
Record RecordStepLaws (processRecord : RecordStep) : Prop := {
  step_frame : forall cr si pi r d h,
    processRecord cr si pi r (mkHeap d (sellerStats h))
    = mkHeap d (sellerStats (processRecord cr si pi r h));
  step_unknown_seller : forall cr si pi r h,
    si !! PurchaseRecord.seller_id r = None -> processRecord cr si pi r h = h;
  step_unknown_product : forall cr si pi seller_id items1 item items2 h,
    pi !! LineItem.sku item = None ->
    processRecord cr si pi (PurchaseRecord.mk seller_id (items1 ++ item :: items2)) h
    = processRecord cr si pi (PurchaseRecord.mk seller_id (items1 ++ items2)) h;
  step_ids : forall cr si pi r h,
    map SellerStat.id (sellerStats (processRecord cr si pi r h))
    = map SellerStat.id (sellerStats h)
}.

(** The ranking pass keeps identity and profit and sets [bonus] and
    [top_products]; the report of a ranked seller carries the seller's id,
    the rounded profit and the seller's [top_products] read by [view]. *)
Record RankingLaws
    (rankSeller : BonusFn -> Z -> nat -> SellerStat.t -> SellerStat.t)
    (report : SellerStat.t -> Result Report.t)
    (view : list TopProduct.t -> TopProductsValue) : Prop := {
  rank_id : forall cb total i s,
    SellerStat.id (rankSeller cb total i s) = SellerStat.id s;
  rank_profit : forall cb total i s,
    SellerStat.profit (rankSeller cb total i s) = SellerStat.profit s;
  rank_bonus : forall cb total i s,
    SellerStat.bonus (rankSeller cb total i s) <> None;
  rank_top_products : forall cb total i s,
    SellerStat.top_products (rankSeller cb total i s) = Some (topProducts s);
  report_ranked : forall s,
    SellerStat.bonus s <> None ->
    exists r, report s = Returns r
      /\ Report.seller_id r = SellerStat.id s
      /\ Report.profit r = Num.round2 (SellerStat.profit s)
      /\ forall l, SellerStat.top_products s = Some l ->
                   Report.top_products r = view l
}.

(** What a report has of the accumulator it is made from; [view] is how
    the report shows the seller's [top_products]. *)
Definition reports_on (view : list TopProduct.t -> TopProductsValue)
    (s : SellerStat.t) (r : Report.t) : Prop :=
  Report.seller_id r = SellerStat.id s
  /\ Report.profit r = Num.round2 (SellerStat.profit s)
  /\ Report.top_products r = view (topProducts s).

(** A [data] argument whose three collections are arrays. *)
Definition valid_data (sellers : list Seller.t) (products : list Product.t)
    (purchase_records : list PurchaseRecord.t) : Data :=
  mkData (IsArray sellers) (IsArray products) (IsArray purchase_records).

(** The result of a call on a fresh heap with two functions as strategy. *)
Definition run (analyze : Analyzer) (calculateRevenue : RevenueFn)
    (calculateBonus : BonusFn) (data : Data) : Result (list Report.t) :=
  fst (analyze (OptionsObject (IsFunction calculateRevenue)
                              (IsFunction calculateBonus))
         (initial_heap (Some data))).

(** The two checks at the head of [analyzeSalesData], in their order, and
    what follows them. *)
Record AnalyzerLaws (analyze : Analyzer) (processRecord : RecordStep)
    (rankSeller : BonusFn -> Z -> nat -> SellerStat.t -> SellerStat.t)
    (report : SellerStat.t -> Result Report.t) : Prop := {
  check_data : forall options h,
    invalidData (caller_data h) = true ->
    analyze options h = (Throws InvalidData, h);
  check_options : forall options h,
    invalidData (caller_data h) = false ->
    options = OptionsFalsy \/ options = OptionsNotObject ->
    analyze options h = (Throws OptionsNotAnObject, h);
  check_functions : forall f g h,
    invalidData (caller_data h) = false ->
    is_function f = false \/ is_function g = false ->
    analyze (OptionsObject f g) h = (Throws MissingFunctions, h);
  checks_passed : forall cr cb data h,
    caller_data h = Some data ->
    invalidData (Some data) = false ->
    analyze (OptionsObject (IsFunction cr) (IsFunction cb)) h
    = pipeline processRecord rankSeller report cr cb data
}.



(** ** The two sources side by side *)

Inductive Source : Type := part_000 | main_js.

Definition analyzeSalesData (src : Source) : Analyzer :=
  match src with
  | part_000 => Part000.analyzeSalesData
  | main_js => MainJs.analyzeSalesData
  end.

Definition processRecord (src : Source) : RecordStep :=
  match src with
  | part_000 => Part000.processRecord
  | main_js => MainJs.processRecord
  end.

Definition accumulate (src : Source)
    : RevenueFn -> list Product.t -> list PurchaseRecord.t -> Heap -> Heap :=
  match src with
  | part_000 => Part000.accumulate
  | main_js => MainJs.accumulate
  end.

(** ** Sample inputs *)

(** Three sellers, one of them without sales; a record of an unknown
    seller and an item of an unknown product. *)
Definition sample_sellers : list Seller.t :=
  [Seller.mk "seller_1" "Alexey" "Petrov"; Seller.mk "seller_2" "Mikhail" "Nikolaev";
   Seller.mk "seller_3" "Natalya" "Egorova"].

Definition sample_products : list Product.t :=
  [Product.mk "SKU_001" 50; Product.mk "SKU_002" 12.5; Product.mk "SKU_003" 3].

Definition unknown_record : PurchaseRecord.t :=
  PurchaseRecord.mk "seller_9" [LineItem.mk "SKU_001" 1 500 0].


Definition sample_records1 : list PurchaseRecord.t :=
  [PurchaseRecord.mk "seller_1"
     [LineItem.mk "SKU_001" 2 100 10; LineItem.mk "SKU_002" 3 19.99 5]].

Definition sample_records2 : list PurchaseRecord.t :=
  [PurchaseRecord.mk "seller_2" [LineItem.mk "SKU_003" 10 4.25 0];
   PurchaseRecord.mk "seller_1" [LineItem.mk "SKU_003" 1 7.5 0]].

Definition sample_data : Data :=
  valid_data sample_sellers sample_products
    (sample_records1 ++ unknown_record :: sample_records2).

(** One seller with two items whose revenue, 0.125 each, has three
    decimals; the product costs nothing, so the profit is the revenue. *)
Definition rounding_seller : Seller.t := Seller.mk "seller_1" "Alexey" "Petrov".

Definition rounding_product : Product.t := Product.mk "SKU_001" 0.

Definition rounding_item : LineItem.t := LineItem.mk "SKU_001" 1 0.125 0.

Definition rounding_data : Data :=
  valid_data [rounding_seller] [rounding_product]
    [PurchaseRecord.mk "seller_1" [rounding_item; rounding_item]].

(** The heap when the accumulator of [rounding_seller] has been built. *)
Definition rounding_heap : Heap :=
  alloc_sellerStats [newStat rounding_seller] (initial_heap (Some rounding_data)).

(** A single seller with a profit of 200. *)
Definition lone_seller_data : Data :=
  valid_data [Seller.mk "seller_1" "Alexey" "Petrov"] [Product.mk "SKU_001" 50]
    [PurchaseRecord.mk "seller_1" [LineItem.mk "SKU_001" 2 150 0]].

(** Two items with revenues 0.1 and 0.2, whose sum is not 0.3. *)
Definition tenth_item : LineItem.t := LineItem.mk "SKU_001" 1 0.1 0.

Definition fifth_item : LineItem.t := LineItem.mk "SKU_001" 1 0.2 0.

(** The columns of a result. *)
Definition profits_of (r : Result (list Report.t)) : list float :=
  match r with Returns l => map Report.profit l | Throws _ => [] end.

Definition bonuses_of (r : Result (list Report.t)) : list float :=
  match r with Returns l => map Report.bonus l | Throws _ => [] end.

Definition top_products_of (r : Result (list Report.t)) : list TopProductsValue :=
  match r with Returns l => map Report.top_products l | Throws _ => [] end.

(** A running total as the accumulation leaves it: the initial 0 or the
    result of a rounding. *)
Definition two_decimals (x : float) : Prop := x = 0 \/ exists y, x = Num.round2 y.

Definition totals_rounded (s : SellerStat.t) : Prop :=
  two_decimals (SellerStat.profit s) /\ two_decimals (SellerStat.revenue s).

(** ** Further vocabulary *)

(** A record of a known seller writes that seller's accumulator only, and
    what it writes depends on that accumulator only; it adds 1 to the
    sales count and keeps the name. *)
Record RecordStepLocal (step : RecordStep) : Prop := {
  step_local : forall cr si pi r seller,
    si !! PurchaseRecord.seller_id r = Some seller ->
    exists F : SellerStat.t -> SellerStat.t,
      (forall h, step cr si pi r h = update seller F h)
      /\ (forall s, SellerStat.sales_count (F s) = SellerStat.sales_count s + 1)
      /\ (forall s, SellerStat.name (F s) = SellerStat.name s)
}.



(** The ranking pass and the report builder of either source, and what
    the ranking pass does to the value of the bonus function. *)
Definition rankSeller (src : Source)
    : BonusFn -> Z -> nat -> SellerStat.t -> SellerStat.t :=
  match src with
  | part_000 => Part000.rankSeller
  | main_js => MainJs.rankSeller
  end.

Definition report (src : Source) : SellerStat.t -> Result Report.t :=
  match src with
  | part_000 => Part000.report
  | main_js => MainJs.report
  end.



(** The value that [(old || 0) + quantity] leaves in a tally. *)
Definition tallied (old : option float) (quantity : float) : float :=
  Part000.or_zero old + quantity.

(** The amount of [cents] hundredths, as the literal [cents / 100]. *)
Definition amount (cents : Z) : float := of_uint63 (Uint63.of_Z cents) / 100.

(** Every amount from [lo] cents on, [n] of them, is left as it is by
    the rounding. *)
Fixpoint amounts_fixed (n : nat) (lo : Z) : bool :=
  match n with
  | O => true
  | S n' =>
      Leibniz.eqb (Num.round2 (amount lo)) (amount lo)
      && amounts_fixed n' (lo + 1)
  end.

(** What the steps on items keep of an accumulator. *)
Definition keeps_count_and_name (F : SellerStat.t -> SellerStat.t) : Prop :=
  forall s,
    SellerStat.sales_count (F s) = SellerStat.sales_count s
    /\ SellerStat.name (F s) = SellerStat.name s
    /\ SellerStat.revenue (F s) = SellerStat.revenue s.





(** What the two sources accumulate alike: all of an accumulator but its
    revenue and profit. *)
Definition same_sales (s s' : SellerStat.t) : Prop :=
  SellerStat.id s = SellerStat.id s'
  /\ SellerStat.name s = SellerStat.name s'
  /\ SellerStat.sales_count s = SellerStat.sales_count s'
  /\ SellerStat.products_sold s = SellerStat.products_sold s'
  /\ SellerStat.bonus s = SellerStat.bonus s'
  /\ SellerStat.top_products s = SellerStat.top_products s'.


Definition processItem (src : Source)
    : RevenueFn -> gmap string Product.t -> nat -> LineItem.t -> Heap * float ->
      Heap * float :=
  match src with
  | part_000 => Part000.processItem
  | main_js => MainJs.processItem
  end.

(** Every amount from [lo] cents on, [n] of them, is above zero. *)
Fixpoint amounts_positive (n : nat) (lo : Z) : bool :=
  match n with
  | O => true
  | S n' => (0 <? amount lo) && amounts_positive n' (lo + 1)
  end.

(** ** Arrays: sorting and mapping *)

Lemma JsArray_insert_perm {A : Type} (cmp : A -> A -> float) (x : A) (l : list A) :
  Permutation (JsArray.insert cmp x l) (x :: l).
Proof.
  induction l as [| y l IH]; cbn; [reflexivity |].
  destruct (0 <? cmp x y); [| reflexivity].
  rewrite IH. apply perm_swap.
Qed.

Lemma JsArray_sort_perm {A : Type} (cmp : A -> A -> float) (l : list A) :
  Permutation (JsArray.sort cmp l) l.
Proof.
  induction l as [| x l IH]; cbn; [reflexivity |].
  fold (JsArray.sort cmp l). rewrite JsArray_insert_perm. now constructor.
Qed.


Section SortedBy.

Context {A : Type} (cmp : A -> A -> float) (R : A -> A -> Prop).




End SortedBy.



Lemma mapM_Returns {A B : Type} (f : A -> Result B) (l : list A) :
  (forall x, x ∈ l -> exists y, f x = Returns y) ->
  exists ys, mapM f l = Returns ys /\ Forall2 (fun x y => f x = Returns y) l ys.
Proof.
  induction l as [| x l IH]; intros Hf; cbn.
  - exists []. split; [reflexivity | constructor].
  - destruct (Hf x) as [y Hy]; [constructor |]. rewrite Hy.
    destruct IH as (ys & -> & HF); [intros; apply Hf; now constructor |].
    exists (y :: ys). split; [reflexivity | now constructor].
Qed.

Lemma Forall2_map_eq {A B C : Type} (P : A -> B -> Prop) (f : A -> C) (g : B -> C)
    (l : list A) (k : list B) :
  Forall2 P l k -> (forall x y, P x y -> f x = g y) -> map f l = map g k.
Proof.
  intros HP Hfg. induction HP; cbn; [reflexivity |]. f_equal; auto.
Qed.


Lemma map_alter_inv {A B : Type} (f : A -> B) (g : A -> A) (i : nat) (l : list A) :
  (forall x, f (g x) = f x) -> map f (alter g i l) = map f l.
Proof.
  intros Hg. revert i. induction l as [| x l IH]; intros [| i]; cbn;
    try reflexivity.
  - now rewrite Hg.
  - f_equal. apply IH.
Qed.

(** ** Dictionaries *)




(** ** The accumulation pass *)

Lemma foldl_items_frame {X : Type} (step : X -> Heap * float -> Heap * float)
    (items : list X) :
  (forall x d h rr,
     step x (mkHeap d (sellerStats h), rr)
     = (mkHeap d (sellerStats (step x (h, rr)).1), (step x (h, rr)).2)) ->
  forall d h rr,
    foldl (fun st x => step x st) (mkHeap d (sellerStats h), rr) items
    = (mkHeap d (sellerStats (foldl (fun st x => step x st) (h, rr) items).1),
       (foldl (fun st x => step x st) (h, rr) items).2).
Proof.
  intros Hstep. induction items as [| x items IH]; intros d h rr; cbn.
  - reflexivity.
  - rewrite Hstep. destruct (step x (h, rr)) as [h1 rr1]. cbn. apply IH.
Qed.

Lemma foldl_items_ids {X : Type} (step : X -> Heap * float -> Heap * float)
    (items : list X) :
  (forall x st,
     map SellerStat.id (sellerStats (step x st).1)
     = map SellerStat.id (sellerStats st.1)) ->
  forall st,
    map SellerStat.id (sellerStats (foldl (fun st x => step x st) st items).1)
    = map SellerStat.id (sellerStats st.1).
Proof.
  intros Hstep. induction items as [| x items IH]; intros st; cbn;
    [reflexivity |].
  rewrite IH. apply Hstep.
Qed.

Lemma update_ids (seller : nat) (f : SellerStat.t -> SellerStat.t) (h : Heap) :
  (forall s, SellerStat.id (f s) = SellerStat.id s) ->
  map SellerStat.id (sellerStats (update seller f h))
  = map SellerStat.id (sellerStats h).
Proof. intros Hf. cbn. now apply map_alter_inv. Qed.

Lemma Part000_processItem_frame cr pi seller item d h rr :
  Part000.processItem cr pi seller item (mkHeap d (sellerStats h), rr)
  = (mkHeap d (sellerStats (Part000.processItem cr pi seller item (h, rr)).1),
     (Part000.processItem cr pi seller item (h, rr)).2).
Proof.
  unfold Part000.processItem. destruct (pi !! LineItem.sku item); reflexivity.
Qed.

Lemma Part000_processItem_ids cr pi seller item st :
  map SellerStat.id (sellerStats (Part000.processItem cr pi seller item st).1)
  = map SellerStat.id (sellerStats st.1).
Proof.
  destruct st as [h rr]. unfold Part000.processItem.
  destruct (pi !! LineItem.sku item); [| reflexivity].
  cbn [fst]. rewrite !update_ids; reflexivity.
Qed.

Lemma Part000_processRecord_laws : RecordStepLaws Part000.processRecord.
Proof.
  split.
  - intros cr si pi r d h. unfold Part000.processRecord.
    destruct (si !! PurchaseRecord.seller_id r) as [seller |]; [| reflexivity].
    change (update seller ?f (mkHeap d (sellerStats h)))
      with (mkHeap d (sellerStats (update seller f h))).
    rewrite (foldl_items_frame (Part000.processItem cr pi seller)).
    + destruct (foldl _ _ _) as [h1 rr1]. reflexivity.
    + intros; apply Part000_processItem_frame.
  - intros cr si pi r h Hnone. unfold Part000.processRecord. now rewrite Hnone.
  - intros cr si pi sid items1 item items2 h Hnone. unfold Part000.processRecord.
    cbn [PurchaseRecord.seller_id PurchaseRecord.items].
    destruct (si !! sid) as [seller |]; [| reflexivity].
    rewrite !foldl_app. cbn [foldl].
    replace (Part000.processItem cr pi seller item _) with
      (foldl (fun st item => Part000.processItem cr pi seller item st)
         (update seller
            (fun s => SellerStat.set_sales_count (SellerStat.sales_count s + 1) s)
            h, 0) items1); [reflexivity |].
    destruct (foldl _ _ items1) as [h1 rr1].
    unfold Part000.processItem. now rewrite Hnone.
  - intros cr si pi r h. unfold Part000.processRecord.
    destruct (si !! PurchaseRecord.seller_id r) as [seller |]; [| reflexivity].
    pose proof (foldl_items_ids (Part000.processItem cr pi seller)
                  (PurchaseRecord.items r)
                  (fun x st => Part000_processItem_ids cr pi seller x st)) as Hids.
    specialize (Hids (update seller
      (fun s => SellerStat.set_sales_count (SellerStat.sales_count s + 1) s) h, 0)).
    destruct (foldl _ _ _) as [h1 rr1]. cbn [fst] in Hids.
    rewrite update_ids by reflexivity. rewrite Hids. now rewrite update_ids.
Qed.

Lemma MainJs_processItem_frame cr pi seller item d h rr :
  MainJs.processItem cr pi seller item (mkHeap d (sellerStats h), rr)
  = (mkHeap d (sellerStats (MainJs.processItem cr pi seller item (h, rr)).1),
     (MainJs.processItem cr pi seller item (h, rr)).2).
Proof.
  unfold MainJs.processItem. destruct (pi !! LineItem.sku item); reflexivity.
Qed.

Lemma MainJs_processItem_ids cr pi seller item st :
  map SellerStat.id (sellerStats (MainJs.processItem cr pi seller item st).1)
  = map SellerStat.id (sellerStats st.1).
Proof.
  destruct st as [h rr]. unfold MainJs.processItem.
  destruct (pi !! LineItem.sku item); [| reflexivity].
  cbn [fst]. rewrite !update_ids; try reflexivity.
  intros s. now destruct (MainJs.falsy _).
Qed.

Lemma MainJs_processRecord_laws : RecordStepLaws MainJs.processRecord.
Proof.
  split.
  - intros cr si pi r d h. unfold MainJs.processRecord.
    destruct (si !! PurchaseRecord.seller_id r) as [seller |]; [| reflexivity].
    change (update seller ?f (mkHeap d (sellerStats h)))
      with (mkHeap d (sellerStats (update seller f h))).
    rewrite (foldl_items_frame (MainJs.processItem cr pi seller)).
    + destruct (foldl _ _ _) as [h1 rr1]. reflexivity.
    + intros; apply MainJs_processItem_frame.
  - intros cr si pi r h Hnone. unfold MainJs.processRecord. now rewrite Hnone.
  - intros cr si pi sid items1 item items2 h Hnone. unfold MainJs.processRecord.
    cbn [PurchaseRecord.seller_id PurchaseRecord.items].
    destruct (si !! sid) as [seller |]; [| reflexivity].
    rewrite !foldl_app. cbn [foldl].
    replace (MainJs.processItem cr pi seller item _) with
      (foldl (fun st item => MainJs.processItem cr pi seller item st)
         (update seller
            (fun s => SellerStat.set_sales_count (SellerStat.sales_count s + 1) s)
            h, 0) items1); [reflexivity |].
    destruct (foldl _ _ items1) as [h1 rr1].
    unfold MainJs.processItem. now rewrite Hnone.
  - intros cr si pi r h. unfold MainJs.processRecord.
    destruct (si !! PurchaseRecord.seller_id r) as [seller |]; [| reflexivity].
    pose proof (foldl_items_ids (MainJs.processItem cr pi seller)
                  (PurchaseRecord.items r)
                  (fun x st => MainJs_processItem_ids cr pi seller x st)) as Hids.
    specialize (Hids (update seller
      (fun s => SellerStat.set_sales_count (SellerStat.sales_count s + 1) s) h, 0)).
    destruct (foldl _ _ _) as [h1 rr1]. cbn [fst] in Hids.
    rewrite update_ids by reflexivity. rewrite Hids. now rewrite update_ids.
Qed.

Lemma Part000_ranking_laws :
  RankingLaws Part000.rankSeller Part000.report TopArray.
Proof.
  split; try reflexivity.
  - intros cb total i s. discriminate.
  - intros s Hb. unfold Part000.report.
    destruct (SellerStat.bonus s) as [b |]; [| congruence].
    eexists. split; [reflexivity |]. cbn. repeat split.
    intros l ->. reflexivity.
Qed.

Lemma MainJs_ranking_laws :
  RankingLaws MainJs.rankSeller MainJs.report
    (fun l => TopNumber (MainJs.plus_array (Some l))).
Proof.
  split; try reflexivity.
  - intros cb total i s. discriminate.
  - intros s Hb. unfold MainJs.report.
    destruct (SellerStat.bonus s) as [b |]; [| congruence].
    eexists. split; [reflexivity |]. cbn. repeat split.
    intros l ->. reflexivity.
Qed.

(** ** Properties of the pass, for either source *)


Section Pipeline.

Context (processRecord : RecordStep) (Hstep : RecordStepLaws processRecord).
Context (rankSeller : BonusFn -> Z -> nat -> SellerStat.t -> SellerStat.t)
        (report : SellerStat.t -> Result Report.t)
        (view : list TopProduct.t -> TopProductsValue)
        (Hrank : RankingLaws rankSeller report view).

Lemma records_frame cr si pi records d h :
  foldl (fun h r => processRecord cr si pi r h) (mkHeap d (sellerStats h)) records
  = mkHeap d (sellerStats (foldl (fun h r => processRecord cr si pi r h) h records)).
Proof.
  revert h. induction records as [| r records IH]; intros h; cbn; [reflexivity |].
  rewrite (step_frame _ Hstep). apply IH.
Qed.

Lemma accumulate_frame cr products records d h :
  accumulate_with processRecord cr products records (mkHeap d (sellerStats h))
  = mkHeap d (sellerStats (accumulate_with processRecord cr products records h)).
Proof. unfold accumulate_with. cbn [sellerStats]. apply records_frame. Qed.

Lemma accumulate_caller_data cr products records h :
  caller_data (accumulate_with processRecord cr products records h)
  = caller_data h.
Proof.
  destruct h as [d stats].
  change (mkHeap d stats) with (mkHeap d (sellerStats (mkHeap d stats))).
  now rewrite accumulate_frame.
Qed.

Lemma accumulate_ids cr products records h :
  map SellerStat.id (sellerStats (accumulate_with processRecord cr products records h))
  = map SellerStat.id (sellerStats h).
Proof.
  unfold accumulate_with. generalize (sellerIndex_of (sellerStats h)) as si.
  intros si. revert h.
  induction records as [| r records IH]; intros h; cbn; [reflexivity |].
  rewrite IH. apply (step_ids _ Hstep).
Qed.

Lemma totals_ids cr data :
  map SellerStat.id (totals (accumulate_with processRecord) cr data)
  = map Seller.id (elems_of (sellers data)).
Proof.
  unfold totals. rewrite accumulate_ids. cbn. rewrite map_map. reflexivity.
Qed.



Lemma ranked_reports (g : nat -> SellerStat.t -> SellerStat.t)
    (l : list SellerStat.t) :
  (forall i s, exists cb total j, g i s = rankSeller cb total j s) ->
  exists reports,
    mapM report (imap g l) = Returns reports /\ Forall2 (reports_on view) l reports.
Proof.
  revert g. induction l as [| s l IH]; intros g Hg; cbn.
  - exists []. split; [reflexivity | constructor].
  - destruct (Hg 0%nat s) as (cb & total & j & ->).
    destruct (report_ranked _ _ _ Hrank (rankSeller cb total j s))
      as (r & -> & Hid & Hprofit & Htop); [apply (rank_bonus _ _ _ Hrank) |].
    destruct (IH (g ∘ S)) as (reports & -> & HF); [intros; apply Hg |].
    exists (r :: reports). split; [reflexivity |]. constructor; [| assumption].
    unfold reports_on.
    rewrite Hid, Hprofit, (rank_id _ _ _ Hrank), (rank_profit _ _ _ Hrank).
    repeat split. apply Htop, (rank_top_products _ _ _ Hrank).
Qed.

Lemma pipeline_reports cr cb data :
  exists reports,
    (pipeline processRecord rankSeller report cr cb data).1 = Returns reports
    /\ Forall2 (reports_on view)
         (JsArray.sort byProfit (totals (accumulate_with processRecord) cr data))
         reports.
Proof.
  unfold pipeline. cbn [fst]. apply ranked_reports. intros i s. eauto.
Qed.

Lemma pipeline_one_report_per_seller cr cb data reports :
  (pipeline processRecord rankSeller report cr cb data).1 = Returns reports ->
  Permutation (map Report.seller_id reports)
    (map Seller.id (elems_of (sellers data))).
Proof.
  intros Hrun. destruct (pipeline_reports cr cb data) as (reports' & Hrun' & HF).
  rewrite Hrun in Hrun'. injection Hrun' as <-.
  rewrite <- (totals_ids cr data).
  rewrite <- (Forall2_map_eq _ SellerStat.id Report.seller_id _ _ HF).
  - apply Permutation_map, JsArray_sort_perm.
  - intros s r (Hid & _). now rewrite Hid.
Qed.


End Pipeline.

(** ** The two checks *)



Lemma Part000_analyzer_laws :
  AnalyzerLaws Part000.analyzeSalesData Part000.processRecord Part000.rankSeller
    Part000.report.
Proof.
  split.
  - intros options h Hbad. unfold Part000.analyzeSalesData. now rewrite Hbad.
  - intros options h Hok [-> | ->]; unfold Part000.analyzeSalesData; rewrite Hok;
      now destruct (caller_data h).
  - intros f g h Hok Hfun. unfold Part000.analyzeSalesData. rewrite Hok.
    destruct (caller_data h); [| discriminate].
    destruct f, g; try reflexivity; destruct Hfun; discriminate.
  - intros cr cb data [d stats] Hd Hok. cbn in Hd. subst d.
    unfold Part000.analyzeSalesData. cbn [caller_data]. rewrite Hok.
    unfold pipeline, totals, update_all. cbn [caller_data sellerStats].
    change (Part000.accumulate cr ?p ?r ?h)
      with (accumulate_with Part000.processRecord cr p r h).
    rewrite (accumulate_caller_data _ Part000_processRecord_laws). reflexivity.
Qed.

Lemma MainJs_analyzer_laws :
  AnalyzerLaws MainJs.analyzeSalesData MainJs.processRecord MainJs.rankSeller
    MainJs.report.
Proof.
  split.
  - intros options h Hbad. unfold MainJs.analyzeSalesData. now rewrite Hbad.
  - intros options h Hok [-> | ->]; unfold MainJs.analyzeSalesData; rewrite Hok;
      now destruct (caller_data h).
  - intros f g h Hok Hfun. unfold MainJs.analyzeSalesData. rewrite Hok.
    destruct (caller_data h); [| discriminate].
    destruct f as [| [] |], g as [| [] |]; try reflexivity;
      destruct Hfun; discriminate.
  - intros cr cb data [d stats] Hd Hok. cbn in Hd. subst d.
    unfold MainJs.analyzeSalesData. cbn [caller_data]. rewrite Hok.
    cbn [falsy_field is_function orb negb].
    unfold pipeline, totals, update_all. cbn [caller_data sellerStats].
    change (MainJs.accumulate cr ?p ?r ?h)
      with (accumulate_with MainJs.processRecord cr p r h).
    rewrite (accumulate_caller_data _ MainJs_processRecord_laws). reflexivity.
Qed.

Section Analyzer.

Context (analyze : Analyzer) (processRecord : RecordStep)
        (rankSeller : BonusFn -> Z -> nat -> SellerStat.t -> SellerStat.t)
        (report : SellerStat.t -> Result Report.t)
        (view : list TopProduct.t -> TopProductsValue)
        (Hstep : RecordStepLaws processRecord)
        (Hrank : RankingLaws rankSeller report view)
        (Hanalyze : AnalyzerLaws analyze processRecord rankSeller report).


(** Every call ends in one of four ways. *)
Lemma analyze_cases options h :
  (invalidData (caller_data h) = true
   /\ analyze options h = (Throws InvalidData, h))
  \/ (invalidData (caller_data h) = false
      /\ (options = OptionsFalsy \/ options = OptionsNotObject)
      /\ analyze options h = (Throws OptionsNotAnObject, h))
  \/ (invalidData (caller_data h) = false
      /\ (exists f g, options = OptionsObject f g
            /\ (is_function f = false \/ is_function g = false))
      /\ analyze options h = (Throws MissingFunctions, h))
  \/ (invalidData (caller_data h) = false
      /\ exists cr cb data reports,
           options = OptionsObject (IsFunction cr) (IsFunction cb)
           /\ caller_data h = Some data
           /\ analyze options h
              = pipeline processRecord rankSeller report cr cb data
           /\ (analyze options h).1 = Returns reports).
Proof.
  destruct (invalidData (caller_data h)) eqn:Hdata.
  { left. split; [reflexivity |]. now apply (check_data _ _ _ _ Hanalyze). }
  right. destruct options as [| | f g].
  - left. repeat split; auto. apply (check_options _ _ _ _ Hanalyze); auto.
  - left. repeat split; auto. apply (check_options _ _ _ _ Hanalyze); auto.
  - right.
    destruct (is_function f) eqn:Hf; [destruct (is_function g) eqn:Hg |].
    + right. split; [reflexivity |].
      destruct f as [| | cr], g as [| | cb]; try discriminate.
      destruct (caller_data h) as [data |] eqn:Hd; [| discriminate].
      destruct (pipeline_reports processRecord rankSeller report view Hrank
                  cr cb data) as (reports & Hrun & _).
      exists cr, cb, data, reports.
      rewrite (checks_passed _ _ _ _ Hanalyze cr cb data h Hd Hdata). auto.
    + left. split; [reflexivity |]. split; [eauto |].
      apply (check_functions _ _ _ _ Hanalyze); auto.
    + left. split; [reflexivity |]. split; [eauto |].
      apply (check_functions _ _ _ _ Hanalyze); auto.
Qed.


(** Which calls throw, and what. *)
Lemma analyze_throws options h e :
  (analyze options h).1 = Throws e
  <-> (invalidData (caller_data h) = true /\ e = InvalidData)
      \/ (invalidData (caller_data h) = false
          /\ (options = OptionsFalsy \/ options = OptionsNotObject)
          /\ e = OptionsNotAnObject)
      \/ (invalidData (caller_data h) = false
          /\ (exists f g, options = OptionsObject f g
                /\ (is_function f = false \/ is_function g = false))
          /\ e = MissingFunctions).
Proof.
  destruct (analyze_cases options h)
    as [(Hd & ->) | [(Hd & Ho & ->) | [(Hd & Ho & ->) | (Hd & Hrun)]]]; cbn [fst].
  - split; [intros [= <-]; auto |].
    intros [(_ & ->) | [(Hd' & _) | (Hd' & _)]]; congruence.
  - split; [intros [= <-]; auto |].
    intros [(Hd' & _) | [(_ & _ & ->) | (_ & (f & g & -> & _) & _)]];
      try congruence; destruct Ho; discriminate.
  - split; [intros [= <-]; auto 6 |].
    intros [(Hd' & _) | [(_ & Ho' & _) | (_ & _ & ->)]]; try congruence.
    destruct Ho as (f & g & -> & _). destruct Ho'; discriminate.
  - destruct Hrun as (cr & cb & data & reports & -> & _ & _ & ->).
    split; [discriminate |].
    intros [(Hd' & _) | [(_ & [[=] | [=]] & _) | (_ & Ho & _)]];
      [congruence |].
    destruct Ho as (f & g & [= <- <-] & [[=] | [=]]).
Qed.


End Analyzer.

(** ** The strategy functions *)

(** C2. For every rank, seller count and seller, [calculateBonusByProfit]
    returns the value of the first tier that matches: 15% of the profit at
    rank 0, 10% at rank 1 or 2, otherwise 0 at the last rank, and 5% at
    every remaining rank; sellers with profits 500, 300, 300, 100, 50 get
    75, 30, 30, 5, 0.  Both sources agree. *)
Theorem calculateBonusByProfit_tiers :
  (forall (index total : Z) (seller : SellerStat.t),
     let profit := SellerStat.profit seller in
     let bonus := Part000.calculateBonusByProfit index total seller in
     MainJs.calculateBonusByProfit index total seller = bonus
     /\ (index = 0%Z -> bonus = profit * 0.15)
     /\ (index = 1%Z \/ index = 2%Z -> bonus = profit * 0.10)
     /\ (index <> 0%Z -> index <> 1%Z -> index <> 2%Z ->
         index = (total - 1)%Z -> bonus = 0)
     /\ (index <> 0%Z -> index <> 1%Z -> index <> 2%Z ->
         index <> (total - 1)%Z -> bonus = profit * 0.05))
  /\ imap (fun index seller =>
             Part000.calculateBonusByProfit (Z.of_nat index) 5 seller)
       (map seller_with_profit [500; 300; 300; 100; 50])
     = [75; 30; 30; 5; 0].
Proof.
  split; [| reflexivity].
  intros index total seller profit bonus. subst profit bonus.
  unfold MainJs.calculateBonusByProfit, Part000.calculateBonusByProfit.
  split; [reflexivity |].
  destruct (Z.eqb_spec index 0) as [-> | H0].
  { repeat split; intros; try reflexivity; lia. }
  destruct (Z.eqb_spec index 1) as [-> | H1].
  { repeat split; intros; try reflexivity; lia. }
  destruct (Z.eqb_spec index 2) as [-> | H2].
  { repeat split; intros; try reflexivity; lia. }
  destruct (Z.eqb_spec index (total - 1)) as [Hl | Hl]; cbn [orb].
  - repeat split; intros; try reflexivity; lia.
  - repeat split; intros; try reflexivity; lia.
Qed.

(** C3. With a single seller, rank 0 is both the top rank and the last
    rank ([0 = total - 1]); the top-rank test comes first, so the bonus is
    15% of the profit and not 0: a lone seller with a profit of 200 is
    reported with a bonus of 30, in either source. *)
Theorem calculateBonusByProfit_single_seller :
  forall seller : SellerStat.t,
    (0 =? 0)%Z = true /\ (0 =? 1 - 1)%Z = true
    /\ Part000.calculateBonusByProfit 0 1 seller = SellerStat.profit seller * 0.15
    /\ MainJs.calculateBonusByProfit 0 1 seller = SellerStat.profit seller * 0.15
    /\ profits_of (run Part000.analyzeSalesData Part000.calculateSimpleRevenue
                     Part000.calculateBonusByProfit lone_seller_data) = [200]
    /\ bonuses_of (run Part000.analyzeSalesData Part000.calculateSimpleRevenue
                     Part000.calculateBonusByProfit lone_seller_data) = [30]
    /\ bonuses_of (run MainJs.analyzeSalesData MainJs.calculateSimpleRevenue
                     MainJs.calculateBonusByProfit lone_seller_data) = [30].
Proof.
  intros seller. repeat split; vm_compute; reflexivity.
Qed.

(** C5. [calculateSimpleRevenue] returns [fullPrice * (1 - discount / 100)]
    with [fullPrice = sale_price * quantity], whatever the product; for
    the item with sale price 100, quantity 2 and discount 10 that is 180. *)
Theorem calculateSimpleRevenue_formula :
  (forall (item : LineItem.t) (product : Product.t),
     let fullPrice := LineItem.sale_price item * LineItem.quantity item in
     Part000.calculateSimpleRevenue item product
     = fullPrice * (1 - LineItem.discount item / 100)
     /\ MainJs.calculateSimpleRevenue item product
        = Part000.calculateSimpleRevenue item product)
  /\ (forall (item : LineItem.t) (product product' : Product.t),
        Part000.calculateSimpleRevenue item product
        = Part000.calculateSimpleRevenue item product')
  /\ (forall product : Product.t,
        Part000.calculateSimpleRevenue (LineItem.mk "SKU_001" 2 100 10) product
        = 180).
Proof.
  repeat split.
Qed.
(** ** The report *)

Lemma source_step_laws (src : Source) : RecordStepLaws (processRecord src).
Proof.
  destruct src; [apply Part000_processRecord_laws | apply MainJs_processRecord_laws].
Qed.














(** ** Where [src/src/main.js] departs *)

Lemma float_neq (x y : float) : (x =? y) = false -> is_nan x = false -> x <> y.
Proof.
  intros Hxy Hnan <-. unfold is_nan in Hnan. rewrite Hxy in Hnan. discriminate.
Qed.

(** C1 on [src/src/main.js]. With a product that costs nothing and an
    item whose revenue is 0.125, the running profit after the item is
    0.125, not the 0.13 that rounding after the add gives and that
    [src/unnamed/part_000] holds; with items of revenue 0.1 and 0.2 the
    record's subtotal and the seller's running profit end at
    0.30000000000000004, where [src/unnamed/part_000] has 0.3; and the
    subtotal is added to the running revenue without rounding. *)
Theorem main_js_running_totals_not_rounded :
  let pi := productIndex_of [rounding_product] in
  let main_js_item item st :=
    MainJs.processItem MainJs.calculateSimpleRevenue pi 0 item st in
  let part_000_item item st :=
    Part000.processItem Part000.calculateSimpleRevenue pi 0 item st in
  let record :=
    PurchaseRecord.mk "seller_1" [tenth_item; fifth_item] in
  let si := sellerIndex_of (sellerStats rounding_heap) in
  map SellerStat.profit (sellerStats (main_js_item rounding_item (rounding_heap, 0)).1)
  = [0.125]
  /\ Num.round2 (0 + 0.125) = 0.13
  /\ 0.125 <> 0.13
  /\ map SellerStat.profit
       (sellerStats (part_000_item rounding_item (rounding_heap, 0)).1) = [0.13]
  /\ (foldl (fun st item => main_js_item item st) (rounding_heap, 0)
        [tenth_item; fifth_item]).2 = 0.30000000000000004
  /\ (foldl (fun st item => part_000_item item st) (rounding_heap, 0)
        [tenth_item; fifth_item]).2 = 0.3
  /\ 0.30000000000000004 <> 0.3
  /\ map SellerStat.revenue
       (sellerStats (MainJs.processRecord MainJs.calculateSimpleRevenue si pi record
                       rounding_heap)) = [0.30000000000000004]
  /\ map SellerStat.revenue
       (sellerStats (Part000.processRecord Part000.calculateSimpleRevenue si pi
                       record rounding_heap)) = [0.3].
Proof.
  cbv zeta. repeat split; try (vm_compute; reflexivity);
    apply float_neq; vm_compute; reflexivity.
Qed.

(** C4 on [src/src/main.js]. The report's [top_products] is the number
    that unary plus makes of the array: NaN for a seller who sold
    something, 0 for a seller who sold nothing; [src/unnamed/part_000]
    reports the list itself. *)
Theorem main_js_top_products_is_a_number :
  top_products_of
    (run MainJs.analyzeSalesData MainJs.calculateSimpleRevenue
       MainJs.calculateBonusByProfit sample_data)
  = [TopNumber nan; TopNumber nan; TopNumber 0]
  /\ top_products_of
       (run Part000.analyzeSalesData Part000.calculateSimpleRevenue
          Part000.calculateBonusByProfit sample_data)
     = [TopArray [TopProduct.mk "SKU_002" 3; TopProduct.mk "SKU_001" 2;
                  TopProduct.mk "SKU_003" 1];
        TopArray [TopProduct.mk "SKU_003" 10];
        TopArray []].
Proof.
  split; vm_compute; reflexivity.
Qed.

(** C9 fails. On the input with two items of revenue 0.125 the two
    sources return different reports: [src/src/main.js] reports a profit of
    0.25 and NaN as [top_products], [src/unnamed/part_000] a profit of 0.26
    and the list of top products. *)
Theorem the_two_sources_differ :
  run MainJs.analyzeSalesData MainJs.calculateSimpleRevenue
    MainJs.calculateBonusByProfit rounding_data
  = Returns [Report.mk "seller_1" "Alexey Petrov" 0.26 0.25 1 (TopNumber nan) 0.04]
  /\ run Part000.analyzeSalesData Part000.calculateSimpleRevenue
       Part000.calculateBonusByProfit rounding_data
     = Returns [Report.mk "seller_1" "Alexey Petrov" 0.26 0.26 1
                  (TopArray [TopProduct.mk "SKU_001" 2]) 0.04]
  /\ run MainJs.analyzeSalesData MainJs.calculateSimpleRevenue
       MainJs.calculateBonusByProfit rounding_data
     <> run Part000.analyzeSalesData Part000.calculateSimpleRevenue
          Part000.calculateBonusByProfit rounding_data.
Proof.
  assert (run MainJs.analyzeSalesData MainJs.calculateSimpleRevenue
            MainJs.calculateBonusByProfit rounding_data
          = Returns [Report.mk "seller_1" "Alexey Petrov" 0.26 0.25 1
                       (TopNumber nan) 0.04]) as Hmain
    by (vm_compute; reflexivity).
  assert (run Part000.analyzeSalesData Part000.calculateSimpleRevenue
            Part000.calculateBonusByProfit rounding_data
          = Returns [Report.mk "seller_1" "Alexey Petrov" 0.26 0.26 1
                       (TopArray [TopProduct.mk "SKU_001" 2]) 0.04]) as Hpart
    by (vm_compute; reflexivity).
  repeat split; try assumption.
  rewrite Hmain, Hpart. intros H. discriminate H.
Qed.

(** ** What [src/unnamed/part_000] keeps *)

Lemma foldl_items_Forall {X : Type} (P : SellerStat.t -> Prop)
    (step : X -> Heap * float -> Heap * float) (items : list X) :
  (forall x st, Forall P (sellerStats st.1) -> Forall P (sellerStats (step x st).1)) ->
  forall st,
    Forall P (sellerStats st.1) ->
    Forall P (sellerStats (foldl (fun st x => step x st) st items).1).
Proof.
  intros Hstep. induction items as [| x items IH]; intros st Hst; cbn;
    [assumption |].
  apply IH, Hstep, Hst.
Qed.

Lemma foldl_items_revenue {X : Type} (step : X -> Heap * float -> Heap * float)
    (items : list X) :
  (forall x st,
     map SellerStat.revenue (sellerStats (step x st).1)
     = map SellerStat.revenue (sellerStats st.1)) ->
  forall st,
    map SellerStat.revenue (sellerStats (foldl (fun st x => step x st) st items).1)
    = map SellerStat.revenue (sellerStats st.1).
Proof.
  intros Hstep. induction items as [| x items IH]; intros st; cbn;
    [reflexivity |].
  rewrite IH. apply Hstep.
Qed.

Lemma update_Forall (P : SellerStat.t -> Prop) (seller : nat)
    (f : SellerStat.t -> SellerStat.t) (h : Heap) :
  (forall s, P s -> P (f s)) ->
  Forall P (sellerStats h) -> Forall P (sellerStats (update seller f h)).
Proof.
  intros Hf Hh. cbn. apply Forall_alter; [assumption |].
  intros s _ Hs. apply Hf, Hs.
Qed.

Lemma Part000_processItem_rounded cr pi seller item st :
  Forall totals_rounded (sellerStats st.1) ->
  Forall totals_rounded (sellerStats (Part000.processItem cr pi seller item st).1).
Proof.
  destruct st as [h rr]. unfold Part000.processItem.
  destruct (pi !! LineItem.sku item) as [product |]; [| auto].
  cbn [fst]. intros Hh. apply update_Forall.
  { intros s Hs. exact Hs. }
  apply update_Forall; [| assumption].
  intros s [_ Hrevenue]. split; [| exact Hrevenue]. right. eauto.
Qed.

Lemma Part000_processRecord_rounded cr si pi record h :
  Forall totals_rounded (sellerStats h) ->
  Forall totals_rounded (sellerStats (Part000.processRecord cr si pi record h)).
Proof.
  intros Hh. unfold Part000.processRecord.
  destruct (si !! PurchaseRecord.seller_id record) as [seller |]; [| assumption].
  pose proof (foldl_items_Forall totals_rounded (Part000.processItem cr pi seller)
                (PurchaseRecord.items record)
                (fun x st => Part000_processItem_rounded cr pi seller x st)) as Hitems.
  specialize (Hitems (update seller
    (fun s => SellerStat.set_sales_count (SellerStat.sales_count s + 1) s) h, 0)).
  destruct (foldl _ _ _) as [h1 rr1]. cbn [fst] in Hitems.
  apply update_Forall.
  - intros s [Hprofit _]. split; [exact Hprofit |]. right. eauto.
  - apply Hitems. apply update_Forall; [| assumption]. intros s Hs. exact Hs.
Qed.

(** In [src/unnamed/part_000] every running total is rounded after each
    step: a matched item leaves the seller's profit at
    [round2 (profit + (revenue - cost))] and the record's subtotal at
    [round2 (subtotal + revenue)]; at the end of a record the seller's
    revenue is [round2 (revenue + subtotal)]; and so every accumulated
    profit and revenue is 0 or the result of a rounding. *)
Theorem part_000_rounds_after_each_step :
  forall (cr : RevenueFn) (si : gmap string nat) (pi : gmap string Product.t)
         (record : PurchaseRecord.t) (item : LineItem.t) (product : Product.t)
         (h : Heap) (subtotal : float) (seller : nat) (s : SellerStat.t),
    si !! PurchaseRecord.seller_id record = Some seller ->
    pi !! LineItem.sku item = Some product ->
    sellerStats h !! seller = Some s ->
    let revenue := cr item product in
    let cost := Product.purchase_price product * LineItem.quantity item in
    let st := Part000.processItem cr pi seller item (h, subtotal) in
    let counted :=
      update seller
        (fun s => SellerStat.set_sales_count (SellerStat.sales_count s + 1) s) h in
    let record_subtotal :=
      (foldl (fun st item => Part000.processItem cr pi seller item st)
         (counted, 0) (PurchaseRecord.items record)).2 in
    SellerStat.profit <$> sellerStats st.1 !! seller
    = Some (Num.round2 (SellerStat.profit s + (revenue - cost)))
    /\ st.2 = Num.round2 (subtotal + revenue)
    /\ SellerStat.revenue
         <$> sellerStats (Part000.processRecord cr si pi record h) !! seller
       = Some (Num.round2 (SellerStat.revenue s + record_subtotal))
    /\ (forall data,
          Forall totals_rounded (totals Part000.accumulate cr data)).
Proof.
  intros cr si pi record item product h subtotal seller s Hsi Hpi Hs.
  cbv zeta. split; [| split; [| split]].
  - unfold Part000.processItem. rewrite Hpi. cbn [fst sellerStats update].
    rewrite !list_lookup_alter_eq, Hs. reflexivity.
  - unfold Part000.processItem. rewrite Hpi. reflexivity.
  - unfold Part000.processRecord. rewrite Hsi.
    pose proof (foldl_items_revenue (Part000.processItem cr pi seller)
                  (PurchaseRecord.items record)) as Hrevenue.
    specialize (Hrevenue (fun x st => ltac:(
      destruct st as [h0 rr0]; unfold Part000.processItem;
      destruct (pi !! LineItem.sku x); [| reflexivity];
      cbn [fst sellerStats update]; rewrite !map_alter_inv; reflexivity))).
    specialize (Hrevenue (update seller
      (fun s => SellerStat.set_sales_count (SellerStat.sales_count s + 1) s) h, 0)).
    destruct (foldl _ _ _) as [h1 rr1]. cbn [fst snd] in *.
    unfold update in Hrevenue |- *. cbn [sellerStats] in Hrevenue |- *.
    rewrite map_alter_inv in Hrevenue by reflexivity.
    apply (f_equal (fun l => l !! seller)) in Hrevenue.
    change (map SellerStat.revenue ?l) with (SellerStat.revenue <$> l) in Hrevenue.
    rewrite !list_lookup_fmap, Hs in Hrevenue.
    rewrite list_lookup_alter_eq.
    destruct (sellerStats h1 !! seller) as [s1 |]; [| discriminate].
    cbn in *. injection Hrevenue as ->. reflexivity.
  - intros data. unfold totals.
    change (Part000.accumulate cr ?p ?r ?h0)
      with (accumulate_with Part000.processRecord cr p r h0).
    unfold accumulate_with.
    generalize (sellerIndex_of (sellerStats (alloc_sellerStats
      (map newStat (elems_of (sellers data))) (initial_heap (Some data))))) as si0.
    generalize (productIndex_of (elems_of (products data))) as pi0.
    intros pi0 si0.
    assert (Forall totals_rounded
              (sellerStats (alloc_sellerStats (map newStat (elems_of (sellers data)))
                              (initial_heap (Some data))))) as Hinit.
    { cbn. apply Forall_forall. intros s0 Hs0.
      change (s0 ∈ newStat <$> elems_of (sellers data)) in Hs0.
      apply list_elem_of_fmap in Hs0 as (x & -> & _).
      split; left; reflexivity. }
    revert Hinit. generalize (alloc_sellerStats (map newStat (elems_of (sellers data)))
                                (initial_heap (Some data))) as h0.
    induction (elems_of (purchase_records data)) as [| r rs IH]; intros h0 Hh0;
      cbn; [assumption |].
    apply IH. now apply Part000_processRecord_rounded.
Qed.

(** The first item of the rounding input: the profit goes from 0 to
    [round2 (0 + 0.125)]. *)
Lemma part_000_rounds_after_each_step_witness :
  SellerStat.profit
    <$> sellerStats
          (Part000.processItem Part000.calculateSimpleRevenue
             (productIndex_of [rounding_product]) 0 rounding_item
             (rounding_heap, 0)).1 !! 0%nat
  = Some (Num.round2 (0 + (0.125 - 0 * 1))).
Proof.
  exact (proj1 (part_000_rounds_after_each_step Part000.calculateSimpleRevenue
           (sellerIndex_of (sellerStats rounding_heap))
           (productIndex_of [rounding_product])
           (PurchaseRecord.mk "seller_1" [rounding_item; rounding_item])
           rounding_item rounding_product rounding_heap 0 0%nat
           (newStat rounding_seller) eq_refl eq_refl eq_refl)).
Defined.







(** The two sources fail alike: on the same inputs, with the same error;
    and where one returns, the other returns reports on the same sellers. *)
Theorem the_two_sources_fail_alike :
  forall (options : Options) (h : Heap),
    (forall e,
       (Part000.analyzeSalesData options h).1 = Throws e
       <-> (MainJs.analyzeSalesData options h).1 = Throws e)
    /\ (forall reports,
          (Part000.analyzeSalesData options h).1 = Returns reports ->
          exists reports',
            (MainJs.analyzeSalesData options h).1 = Returns reports'
            /\ Permutation (map Report.seller_id reports)
                 (map Report.seller_id reports')).
Proof.
  intros options h.
  assert (forall e,
            (Part000.analyzeSalesData options h).1 = Throws e
            <-> (MainJs.analyzeSalesData options h).1 = Throws e) as Hthrows.
  { intros e.
    rewrite (analyze_throws _ _ _ _ _ Part000_ranking_laws Part000_analyzer_laws).
    rewrite (analyze_throws _ _ _ _ _ MainJs_ranking_laws MainJs_analyzer_laws).
    reflexivity. }
  split; [exact Hthrows |].
  intros reports Hpart.
  destruct (analyze_cases _ _ _ _ _ MainJs_ranking_laws MainJs_analyzer_laws
              options h)
    as [(Hd & Hmain) | [(Hd & Ho & Hmain) | [(Hd & Ho & Hmain) | (Hd & Hmain)]]].
  1-3: apply (f_equal fst) in Hmain; cbn [fst] in Hmain;
      apply Hthrows in Hmain; congruence.
  destruct Hmain as (cr & cb & data & reports' & -> & Hdata & Hmain & Hret).
  exists reports'. split; [assumption |].
  rewrite Hmain in Hret.
  rewrite (checks_passed _ _ _ _ Part000_analyzer_laws cr cb data h Hdata)
    in Hpart by (now rewrite <- Hdata).
  rewrite (pipeline_one_report_per_seller _ Part000_processRecord_laws _ _ _
             Part000_ranking_laws _ _ _ _ Hpart).
  now rewrite (pipeline_one_report_per_seller _ MainJs_processRecord_laws _ _ _
                 MainJs_ranking_laws _ _ _ _ Hret).
Qed.

(** ** One record, one seller *)

Lemma update_id (seller : nat) (h : Heap) : update seller (fun s => s) h = h.
Proof. destruct h as [d stats]. unfold update. cbn. now rewrite list_alter_id. Qed.

Lemma update_update (seller : nat) (f g : SellerStat.t -> SellerStat.t) (h : Heap) :
  update seller f (update seller g h) = update seller (f ∘ g) h.
Proof. unfold update. cbn. now rewrite list_alter_alter_eq. Qed.

(** A fold of steps that each write one accumulator writes that
    accumulator; the local variable goes its own way. *)
Lemma foldl_items_local {X : Type} (P : (SellerStat.t -> SellerStat.t) -> Prop)
    (step : X -> Heap * float -> Heap * float) (seller : nat) (items : list X) :
  P (fun s => s) ->
  (forall F G, P F -> P G -> P (G ∘ F)) ->
  (forall x, exists F g, P F /\ forall h rr, step x (h, rr) = (update seller F h, g rr)) ->
  exists F g,
    P F /\ forall h rr,
      foldl (fun st x => step x st) (h, rr) items = (update seller F h, g rr).
Proof.
  intros Hid Hcomp Hstep. induction items as [| x items IH]; cbn.
  - exists (fun s => s), (fun rr => rr). split; [assumption |].
    intros h rr. now rewrite update_id.
  - destruct (Hstep x) as (F1 & g1 & HP1 & H1).
    destruct IH as (F2 & g2 & HP2 & H2).
    exists (F2 ∘ F1), (g2 ∘ g1). split; [now apply Hcomp |].
    intros h rr. rewrite H1, H2. now rewrite update_update.
Qed.

Lemma keeps_count_and_name_compose F G :
  keeps_count_and_name F -> keeps_count_and_name G -> keeps_count_and_name (G ∘ F).
Proof.
  intros HF HG s. destruct (HF s) as (H1 & H2 & H3).
  destruct (HG (F s)) as (H4 & H5 & H6). cbn. repeat split; congruence.
Qed.

Lemma Part000_processItem_local cr pi seller item :
  exists F g,
    keeps_count_and_name F
    /\ forall h rr,
         Part000.processItem cr pi seller item (h, rr) = (update seller F h, g rr).
Proof.
  unfold Part000.processItem. destruct (pi !! LineItem.sku item) as [product |].
  - eexists _, _. split; [| intros h rr; rewrite update_update; reflexivity].
    intros s. repeat split.
  - exists (fun s => s), (fun rr => rr). split; [intros s; repeat split |].
    intros h rr. now rewrite update_id.
Qed.

Lemma MainJs_processItem_local cr pi seller item :
  exists F g,
    keeps_count_and_name F
    /\ forall h rr,
         MainJs.processItem cr pi seller item (h, rr) = (update seller F h, g rr).
Proof.
  unfold MainJs.processItem. destruct (pi !! LineItem.sku item) as [product |].
  - eexists _, _. split; [| intros h rr; rewrite !update_update; reflexivity].
    intros s. cbn. now destruct (MainJs.falsy _).
  - exists (fun s => s), (fun rr => rr). split; [intros s; repeat split |].
    intros h rr. now rewrite update_id.
Qed.

Lemma Part000_processRecord_local : RecordStepLocal Part000.processRecord.
Proof.
  split. intros cr si pi r seller Hsi.
  destruct (foldl_items_local keeps_count_and_name
              (Part000.processItem cr pi seller) seller (PurchaseRecord.items r))
    as (F & g & HF & Hfold).
  - intros s. repeat split.
  - apply keeps_count_and_name_compose.
  - intros x. apply Part000_processItem_local.
  - eexists. split; [| split].
    + intros h. unfold Part000.processRecord. rewrite Hsi, Hfold.
      rewrite !update_update. reflexivity.
    + intros s. cbn. now destruct (HF (SellerStat.set_sales_count
                                          (SellerStat.sales_count s + 1) s))
        as (-> & _ & _).
    + intros s. cbn. now destruct (HF (SellerStat.set_sales_count
                                          (SellerStat.sales_count s + 1) s))
        as (_ & -> & _).
Qed.

Lemma MainJs_processRecord_local : RecordStepLocal MainJs.processRecord.
Proof.
  split. intros cr si pi r seller Hsi.
  destruct (foldl_items_local keeps_count_and_name
              (MainJs.processItem cr pi seller) seller (PurchaseRecord.items r))
    as (F & g & HF & Hfold).
  - intros s. repeat split.
  - apply keeps_count_and_name_compose.
  - intros x. apply MainJs_processItem_local.
  - eexists. split; [| split].
    + intros h. unfold MainJs.processRecord. rewrite Hsi, Hfold.
      rewrite !update_update. reflexivity.
    + intros s. cbn. now destruct (HF (SellerStat.set_sales_count
                                          (SellerStat.sales_count s + 1) s))
        as (-> & _ & _).
    + intros s. cbn. now destruct (HF (SellerStat.set_sales_count
                                          (SellerStat.sales_count s + 1) s))
        as (_ & -> & _).
Qed.

Lemma source_step_local (src : Source) : RecordStepLocal (processRecord src).
Proof.
  destruct src; [apply Part000_processRecord_local | apply MainJs_processRecord_local].
Qed.







(** ** Records of different sellers *)

Lemma processRecord_at_other (src : Source) cr si pi r seller k h :
  si !! PurchaseRecord.seller_id r = Some seller -> k <> seller ->
  sellerStats (processRecord src cr si pi r h) !! k = sellerStats h !! k.
Proof.
  intros Hsi Hk.
  destruct (step_local _ (source_step_local src) cr si pi r seller Hsi)
    as (F & HF & _).
  rewrite HF. cbn. now rewrite list_lookup_alter_ne.
Qed.

Lemma processRecord_at_seller (src : Source) cr si pi r seller h s :
  si !! PurchaseRecord.seller_id r = Some seller ->
  sellerStats h !! seller = Some s ->
  exists s',
    sellerStats (processRecord src cr si pi r h) !! seller = Some s'
    /\ SellerStat.id s' = SellerStat.id s
    /\ SellerStat.name s' = SellerStat.name s
    /\ SellerStat.sales_count s' = SellerStat.sales_count s + 1.
Proof.
  intros Hsi Hs.
  destruct (step_local _ (source_step_local src) cr si pi r seller Hsi)
    as (F & HF & Hcount & Hname).
  exists (F s). rewrite HF. cbn.
  rewrite list_lookup_alter_eq, Hs. repeat split; auto.
  pose proof (step_ids _ (source_step_laws src) cr si pi r h) as Hids.
  rewrite HF in Hids. cbn in Hids.
  apply (f_equal (fun l => l !! seller)) in Hids.
  change (map SellerStat.id ?l) with (SellerStat.id <$> l) in Hids.
  rewrite !list_lookup_fmap, list_lookup_alter_eq, Hs in Hids.
  cbn in Hids. now injection Hids.
Qed.

(** A record of a known seller leaves every other accumulator as it was
    and adds 1 to the sales count of its own, in either source; and two
    records of different sellers can be taken in either order. *)
Theorem a_record_writes_its_seller_only :
  forall (src : Source) (cr : RevenueFn) (si : gmap string nat)
         (pi : gmap string Product.t) (r : PurchaseRecord.t) (seller : nat)
         (h : Heap),
    si !! PurchaseRecord.seller_id r = Some seller ->
    (forall k, k <> seller ->
       sellerStats (processRecord src cr si pi r h) !! k = sellerStats h !! k)
    /\ (forall s, sellerStats h !! seller = Some s ->
          exists s',
            sellerStats (processRecord src cr si pi r h) !! seller = Some s'
            /\ SellerStat.id s' = SellerStat.id s
            /\ SellerStat.name s' = SellerStat.name s
            /\ SellerStat.sales_count s' = SellerStat.sales_count s + 1)
    /\ (forall r' seller',
          si !! PurchaseRecord.seller_id r' = Some seller' -> seller' <> seller ->
          processRecord src cr si pi r (processRecord src cr si pi r' h)
          = processRecord src cr si pi r' (processRecord src cr si pi r h)).
Proof.
  intros src cr si pi r seller h Hsi. split; [| split].
  - intros k Hk. now apply processRecord_at_other with (seller := seller).
  - intros s Hs. now apply processRecord_at_seller.
  - intros r' seller' Hsi' Hne.
    destruct (step_local _ (source_step_local src) cr si pi r seller Hsi)
      as (F & HF & _).
    destruct (step_local _ (source_step_local src) cr si pi r' seller' Hsi')
      as (F' & HF' & _).
    rewrite !HF, !HF'. unfold update. cbn. f_equal.
    now apply list_alter_alter_ne.
Qed.

(** The first sample record, of seller_1 at reference 0, on the fresh
    accumulators of the three sample sellers: the accumulator of seller_2
    is as it was. *)
Lemma a_record_writes_its_seller_only_witness :
  sellerStats
    (processRecord part_000 Part000.calculateSimpleRevenue
       (sellerIndex_of (map newStat sample_sellers))
       (productIndex_of sample_products)
       (PurchaseRecord.mk "seller_1" [LineItem.mk "SKU_001" 2 100 10])
       (mkHeap None (map newStat sample_sellers))) !! 1%nat
  = map newStat sample_sellers !! 1%nat.
Proof.
  apply (proj1 (a_record_writes_its_seller_only part_000
           Part000.calculateSimpleRevenue
           (sellerIndex_of (map newStat sample_sellers))
           (productIndex_of sample_products)
           (PurchaseRecord.mk "seller_1" [LineItem.mk "SKU_001" 2 100 10])
           0%nat (mkHeap None (map newStat sample_sellers)) eq_refl)).
  discriminate.
Defined.

(** ** The rows of the report *)











(** ** What a seller's accumulator collects *)













(** ** Inputs without a known seller *)






(** ** The tally of sold quantities *)

Lemma JsObject_get_set_eq {V : Type} (o : JsObject.t V) (key : string) (v : V) :
  JsObject.get (JsObject.set o key v) key = Some v.
Proof.
  induction o as [| [k w] o IH]; cbn.
  - now rewrite decide_True.
  - destruct (decide (k = key)) as [-> | Hne]; cbn.
    + now rewrite decide_True.
    + now rewrite decide_False.
Qed.


Lemma JsObject_set_set {V : Type} (o : JsObject.t V) (key : string) (v w : V) :
  JsObject.set (JsObject.set o key v) key w = JsObject.set o key w.
Proof.
  induction o as [| [k u] o IH]; cbn.
  - now rewrite decide_True.
  - destruct (decide (k = key)) as [-> | Hne]; cbn.
    + now rewrite decide_True.
    + rewrite decide_False by assumption. now rewrite IH.
Qed.

Lemma JsObject_get_None {V : Type} (o : JsObject.t V) (key : string) :
  JsObject.get o key = None <-> key ∉ map fst o.
Proof.
  induction o as [| [k u] o IH]; cbn.
  - split; [intros _ H; inversion H | reflexivity].
  - destruct (decide (k = key)) as [-> | Hne].
    + split; [discriminate |]. intros H. exfalso. apply H. constructor.
    + rewrite IH. split.
      * intros H Hin. apply H. inversion Hin; subst; [contradiction | assumption].
      * intros H Hin. apply H. now constructor.
Qed.




(** The two statements of [src/src/main.js] on the tally do what the one
    of [src/unnamed/part_000] does. *)
Lemma MainJs_tally (o : JsObject.t float) (key : string) (quantity : float) :
  (let o1 := if MainJs.falsy (JsObject.get o key) then JsObject.set o key 0 else o in
   JsObject.set o1 key (MainJs.to_number (JsObject.get o1 key) + quantity))
  = JsObject.set o key (tallied (JsObject.get o key) quantity).
Proof.
  cbv zeta. unfold tallied, Part000.or_zero, MainJs.falsy.
  destruct (JsObject.get o key) as [x |] eqn:Hget; cbn.
  - destruct (Num.truthy x); cbn.
    + now rewrite Hget.
    + now rewrite JsObject_get_set_eq, JsObject_set_set.
  - now rewrite JsObject_get_set_eq, JsObject_set_set.
Qed.




(** ** What the two sources accumulate alike *)

Lemma same_sales_refl (l : list SellerStat.t) : Forall2 same_sales l l.
Proof. induction l; constructor; [repeat split | assumption]. Qed.

Lemma same_sales_update (seller : nat) (f g : SellerStat.t -> SellerStat.t)
    (h h' : Heap) :
  (forall s s', same_sales s s' -> same_sales (f s) (g s')) ->
  Forall2 same_sales (sellerStats h) (sellerStats h') ->
  Forall2 same_sales (sellerStats (update seller f h))
    (sellerStats (update seller g h')).
Proof. intros Hfg Hh. cbn. apply Forall2_alter; [assumption |]. auto. Qed.

Lemma same_sales_processItem cr pi seller item st st' :
  Forall2 same_sales (sellerStats st.1) (sellerStats st'.1) ->
  Forall2 same_sales
    (sellerStats (Part000.processItem cr pi seller item st).1)
    (sellerStats (MainJs.processItem cr pi seller item st').1).
Proof.
  destruct st as [h rr], st' as [h' rr']. cbn [fst]. intros Hh.
  unfold Part000.processItem, MainJs.processItem.
  destruct (pi !! LineItem.sku item) as [product |]; [| assumption].
  cbn [fst]. rewrite !update_update. apply same_sales_update; [| assumption].
  intros s s' (Hid & Hname & Hcount & Hsold & Hbonus & Htop).
  unfold same_sales. cbn [compose]. repeat split.
  - cbn. now destruct (MainJs.falsy _).
  - cbn. now destruct (MainJs.falsy _).
  - cbn. now destruct (MainJs.falsy _).
  - etransitivity; [| etransitivity; [symmetry; apply (MainJs_tally
        (SellerStat.products_sold s') (LineItem.sku item) (LineItem.quantity item)) |]].
    + cbn. now rewrite Hsold.
    + cbv zeta. cbn. now destruct (MainJs.falsy _).
  - cbn. now destruct (MainJs.falsy _).
  - cbn. now destruct (MainJs.falsy _).
Qed.

Lemma same_sales_items cr pi seller items st st' :
  Forall2 same_sales (sellerStats st.1) (sellerStats st'.1) ->
  Forall2 same_sales
    (sellerStats
       (foldl (fun st item => Part000.processItem cr pi seller item st) st items).1)
    (sellerStats
       (foldl (fun st item => MainJs.processItem cr pi seller item st) st' items).1).
Proof.
  revert st st'. induction items as [| item items IH]; intros st st' H; cbn;
    [assumption |].
  apply IH. now apply same_sales_processItem.
Qed.

Lemma same_sales_processRecord cr si pi r h h' :
  Forall2 same_sales (sellerStats h) (sellerStats h') ->
  Forall2 same_sales (sellerStats (Part000.processRecord cr si pi r h))
    (sellerStats (MainJs.processRecord cr si pi r h')).
Proof.
  intros Hh. unfold Part000.processRecord, MainJs.processRecord.
  destruct (si !! PurchaseRecord.seller_id r) as [seller |]; [| assumption].
  pose proof (same_sales_items cr pi seller (PurchaseRecord.items r)
                (update seller
                   (fun s => SellerStat.set_sales_count
                               (SellerStat.sales_count s + 1) s) h, 0)
                (update seller
                   (fun s => SellerStat.set_sales_count
                               (SellerStat.sales_count s + 1) s) h', 0)) as Hitems.
  cbn [fst] in Hitems.
  destruct (foldl _ _ _) as [h1 rr1]. destruct (foldl _ _ _) as [h1' rr1'].
  cbn [fst] in Hitems. apply same_sales_update.
  - intros s s' (Hid & Hname & Hcount & Hsold & Hbonus & Htop). now repeat split.
  - apply Hitems. apply same_sales_update; [| assumption].
    intros s s' (Hid & Hname & Hcount & Hsold & Hbonus & Htop).
    unfold same_sales. cbn. rewrite Hcount. now repeat split.
Qed.

(** The two sources accumulate the same sales counts and the same
    tallies of sold quantities, seller by seller, and so make the same
    list of top products for every seller; they can differ in the
    accumulated revenue and profit only. *)
Theorem the_two_sources_count_and_tally_alike :
  forall (cr : RevenueFn) (data : Data),
    Forall2 same_sales (totals Part000.accumulate cr data)
      (totals MainJs.accumulate cr data)
    /\ map SellerStat.sales_count (totals Part000.accumulate cr data)
       = map SellerStat.sales_count (totals MainJs.accumulate cr data)
    /\ map SellerStat.products_sold (totals Part000.accumulate cr data)
       = map SellerStat.products_sold (totals MainJs.accumulate cr data)
    /\ map topProducts (totals Part000.accumulate cr data)
       = map topProducts (totals MainJs.accumulate cr data).
Proof.
  intros cr data.
  assert (Forall2 same_sales (totals Part000.accumulate cr data)
            (totals MainJs.accumulate cr data)) as H.
  { unfold totals, Part000.accumulate, MainJs.accumulate.
    generalize (sellerIndex_of (sellerStats (alloc_sellerStats
      (map newStat (elems_of (sellers data))) (initial_heap (Some data))))) as si.
    generalize (productIndex_of (elems_of (products data))) as pi.
    intros pi si.
    pose proof (same_sales_refl (sellerStats (alloc_sellerStats
      (map newStat (elems_of (sellers data))) (initial_heap (Some data))))) as Hinit.
    revert Hinit.
    generalize (alloc_sellerStats (map newStat (elems_of (sellers data)))
                  (initial_heap (Some data))) at 1 3 as h.
    generalize (alloc_sellerStats (map newStat (elems_of (sellers data)))
                  (initial_heap (Some data))) as h'.
    induction (elems_of (purchase_records data)) as [| r rs IH]; intros h' h Hh;
      cbn; [assumption |].
    apply IH. now apply same_sales_processRecord. }
  split; [assumption |]. repeat split.
  - eapply Forall2_map_eq; [exact H |]. now intros s s' (_ & _ & ? & _).
  - eapply Forall2_map_eq; [exact H |]. now intros s s' (_ & _ & _ & ? & _).
  - eapply Forall2_map_eq; [exact H |]. intros s s' (_ & _ & _ & Hsold & _).
    unfold topProducts. now rewrite Hsold.
Qed.

(** ** The SKUs of a tally *)







(** ** Where the strategy functions are consulted *)






(** With at most three sellers nobody is in last place for
    [calculateBonusByProfit]: the ranks 1 and 2 are tested before the last
    rank, so the seller at rank 0 gets 15% and every other 10%; the bonus
    of 0 is for the last of at least four sellers only. *)
Theorem last_place_needs_four_sellers :
  forall (index total : Z) (seller : SellerStat.t),
    (0 <= index < total)%Z ->
    let bonus := Part000.calculateBonusByProfit index total seller in
    MainJs.calculateBonusByProfit index total seller = bonus
    /\ ((total <= 3)%Z ->
        bonus = SellerStat.profit seller * (if (index =? 0)%Z then 0.15 else 0.10))
    /\ ((4 <= total)%Z -> index = (total - 1)%Z -> bonus = 0)
    /\ ((4 <= total)%Z -> (3 <= index < total - 1)%Z ->
        bonus = SellerStat.profit seller * 0.05).
Proof.
  intros index total seller Hindex bonus. subst bonus.
  unfold MainJs.calculateBonusByProfit, Part000.calculateBonusByProfit.
  split; [reflexivity |].
  destruct (Z.eqb_spec index 0) as [-> | H0];
    [repeat split; intros; try reflexivity; lia |].
  destruct (Z.eqb_spec index 1) as [-> | H1];
    [repeat split; intros; try reflexivity; lia |].
  destruct (Z.eqb_spec index 2) as [-> | H2];
    [repeat split; intros; try reflexivity; lia |].
  destruct (Z.eqb_spec index (total - 1)) as [Hl | Hl]; cbn [orb];
    repeat split; intros; try reflexivity; lia.
Qed.

(** Three sellers: the last one, at rank 2, gets 10%. *)
Lemma last_place_needs_four_sellers_witness :
  Part000.calculateBonusByProfit 2 3 (seller_with_profit 50) = 50 * 0.10.
Proof.
  exact (proj1 (proj2 (last_place_needs_four_sellers 2 3 (seller_with_profit 50)
           ltac:(lia))) ltac:(lia)).
Defined.
(** ** Rounding amounts of whole cents *)

Lemma amounts_fixed_spec (n : nat) (lo : Z) :
  amounts_fixed n lo = true ->
  forall cents, (lo <= cents < lo + Z.of_nat n)%Z ->
    Num.round2 (amount cents) = amount cents.
Proof.
  revert lo. induction n as [| n IH]; intros lo H cents Hc; [lia |].
  cbn [amounts_fixed] in H. apply andb_true_iff in H as [Hlo Hrest].
  destruct (decide (cents = lo)) as [-> | Hne].
  - now apply FloatAxioms.Leibniz.eqb_spec.
  - apply (IH (lo + 1)%Z Hrest). lia.
Qed.

Lemma amounts_positive_spec (n : nat) (lo : Z) :
  amounts_positive n lo = true ->
  forall cents, (lo <= cents < lo + Z.of_nat n)%Z ->
    (0 <? amount cents) = true.
Proof.
  revert lo. induction n as [| n IH]; intros lo H cents Hc; [lia |].
  cbn [amounts_positive] in H. apply andb_true_iff in H as [Hlo Hrest].
  destruct (decide (cents = lo)) as [-> | Hne]; [exact Hlo |].
  apply (IH (lo + 1)%Z Hrest). lia.
Qed.

(** A number above zero is finite with the sign bit clear, or the
    positive infinity. *)
Lemma positive_shape (x : float) :
  (0 <? x) = true ->
  Prim2SF x = S754_infinity false
  \/ exists m e, Prim2SF x = S754_finite false m e.
Proof.
  rewrite FloatAxioms.ltb_spec.
  change (Prim2SF 0) with (S754_zero false).
  destruct (Prim2SF x) as [[|] | [|] | | [|] m e]; cbn;
    try discriminate; eauto.
Qed.

Lemma Prim2SF_inj (x y : float) : Prim2SF x = Prim2SF y -> x = y.
Proof.
  intros H. rewrite <- (FloatAxioms.SF2Prim_Prim2SF x),
    <- (FloatAxioms.SF2Prim_Prim2SF y).
  now rewrite H.
Qed.

(** The rounding is odd on the numbers above zero: the sign is printed
    apart from the digits. *)
Lemma round2_opp (x : float) :
  (0 <? x) = true -> Num.round2 (- x) = (- Num.round2 x)%float.
Proof.
  intros Hpos. destruct (positive_shape x Hpos) as [Hx | (m & e & Hx)].
  - unfold Num.round2. rewrite FloatAxioms.opp_spec, Hx. reflexivity.
  - assert (abs (- x) = abs x) as Habs.
    { apply Prim2SF_inj.
      now rewrite !FloatAxioms.abs_spec, FloatAxioms.opp_spec, Hx. }
    unfold Num.round2. rewrite FloatAxioms.opp_spec, Hx. cbn [SFopp negb].
    rewrite Habs. now destruct (1e21 <=? abs x).
Qed.

(** [round2] of [src/unnamed/part_000] (and [+x.toFixed(2)] of
    [src/src/main.js]) leaves every amount of whole cents below 1000 as it
    is, with either sign: rounding a value that has two decimals already
    changes nothing, so rounding twice is rounding once there. *)
Theorem round2_leaves_amounts_of_whole_cents :
  forall cents : Z,
    (0 <= cents < 100000)%Z ->
    Part000.round2 (amount cents) = amount cents
    /\ MainJs.toFixed2 (amount cents) = amount cents
    /\ ((0 < cents)%Z -> Part000.round2 (- amount cents) = - amount cents).
Proof.
  intros cents Hc. unfold Part000.round2, MainJs.toFixed2.
  assert (Num.round2 (amount cents) = amount cents) as H.
  { apply (amounts_fixed_spec (Z.to_nat 100000) 0); [vm_compute; reflexivity |].
    lia. }
  split; [exact H |]. split; [exact H |]. intros Hpos.
  rewrite round2_opp; [now rewrite H |].
  apply (amounts_positive_spec (Z.to_nat 99999) 1);
    [vm_compute; reflexivity |].
  lia.
Qed.

(** 19.99, the sale price of the sample. *)
Lemma round2_leaves_amounts_of_whole_cents_witness :
  Part000.round2 19.99 = 19.99.
Proof.
  exact (proj1 (round2_leaves_amounts_of_whole_cents 1999 ltac:(lia))).
Defined.
